(** * Synapse Python client: storage wrappers and batched file-handle copy

    A shallow embedding of

    - [synapseclient/remote_file_storage_wrappers.py]: the classes
      [S3ClientWrapper] and [SFTPWrapper];
    - [synapseutils/copy.py]: [copyFileHandles] and its two private helpers,
      as the specification describes them and as
      [tests/unit/synapseutils/unit_test_synapseutils_copy.py] exercises
      them.

    Python code runs against an outside world (the local file system, boto3,
    pysftp, the Synapse REST client).  That world is a parameter: a
    [Platform] gives the library functions and answers every effect the code
    performs, and the code is written in a state-and-exception monad that
    records each performed effect, in order, in a log. *)

From Stdlib Require Import Ascii String.
From stdpp Require Import gmap strings list fin_maps pretty.

Open Scope string_scope.
Open Scope list_scope.
Open Scope nat_scope.

(** ** Python values and exceptions *)

(** JSON-like Python values.  A [dict] is a finite map, so that two dicts are
    equal exactly when they have the same keys with the same values, whatever
    the order in which the keys were written (Python's [==] on dicts). *)
#[warnings="-register-all"]
Inductive json : Type :=
| JNone
| JStr (s : string)
| JInt (z : Z)
| JList (l : list json)
| JDict (d : gmap string json).

(** [None] or a string *)
Definition json_of_optional (o : option string) : json :=
  match o with
  | None => JNone
  | Some s => JStr s
  end.

(** The exceptions that the modelled code raises, catches or lets through.
    [ValueError] carries the positional arguments it was built with. *)
Inductive exn : Type :=
| ValueError (args : list string)
| NotImplementedError (msg : string)
| ImportError (name : string)
| ClientError (code : string) (message : string)
| OtherError (cls : string) (message : string).

Inductive outcome (A : Type) : Type :=
| Returned (a : A)
| Raised (e : exn).
Arguments Returned {A} a.
Arguments Raised {A} e.

(** ** Data of the two modules *)

(** The six-tuple [urllib.parse.ParseResult] *)
Record ParseResult : Type := mkParseResult {
  scheme : string;
  netloc : string;
  path : string;
  params : string;
  query : string;
  fragment : string
}.

(** [parsedURL._replace(path=p)] *)
Definition _replace_path (u : ParseResult) (p : string) : ParseResult :=
  {| scheme := scheme u; netloc := netloc u; path := p;
     params := params u; query := query u; fragment := fragment u |}.

(** The closure returned by [S3ClientWrapper._create_progress_callback_func]:
    it captures the total size, the file name shown after the bar and the
    prefix shown before it; its byte counter starts at 0. *)
Record progress_callback : Type := mkProgress {
  file_size : Z;
  filename : string;
  prefix : option string;
  bytes_transferred : Z
}.

(** One entry of a [copyResults] list: a copy that succeeded, or a per-item
    failure code. *)
Inductive CopyResultItem : Type :=
| CopySuccess (newFileHandle : json) (originalFileHandleId : string)
| CopyFailure (failureCode : string) (originalFileHandleId : string).

Definition originalFileHandleId (r : CopyResultItem) : string :=
  match r with
  | CopySuccess _ i => i
  | CopyFailure _ i => i
  end.

(** The response of [POST /filehandles/copy] *)
Record CopyResponse : Type := mkCopyResponse {
  copyResults : list CopyResultItem
}.

(** ** Effects *)

(** What the code asks of the outside world.  Every constructor is one call
    into a library that reaches outside the process (or writes to it). *)
Inductive action : Type :=
| SysStderrWrite (text : string)
| Boto3Session (profile_name : option string)
| Boto3Resource (service : string) (endpoint_url : option string)
| S3ObjectLoad (bucket key : string)
| S3ObjectDownloadFile (bucket key filename : string)
    (Callback : option progress_callback)
| S3BucketUploadFile (bucket filename key : string)
    (Callback : option progress_callback)
| OsStat (filename : string)
| OsMakedirs (dir : string)
| PysftpConnection (host : option string) (username password : option string)
| SftpMakedirs (remotedir : string)
| SftpChdir (remotepath : string)
| SftpChdirBack
| SftpPut (localpath : string) (preserve_mtime : bool)
| SftpGet (remotepath localpath : string) (preserve_mtime : bool)
| SftpClose
| RestPOST (uri : string) (body : json).

(** The Python value an action evaluates to when it does not raise. *)
Definition answer (a : action) : Type :=
  match a with
  | S3ObjectLoad _ _ => Z
  | OsStat _ => Z
  | RestPOST _ _ => CopyResponse
  | _ => unit
  end.

(** Actions that open a session or a connection, or talk over one. *)
Definition is_network (a : action) : bool :=
  match a with
  | SysStderrWrite _ | OsStat _ | OsMakedirs _ => false
  | _ => true
  end.

(** The outside world.  [Env] is its state.  The library functions of
    [urllib.parse] and [os.path] are pure; the observations of the local file
    system read the state; [perform] answers an action and moves the state. *)
Class Platform (Env : Type) : Type := {
  urlparse : string -> outcome ParseResult;
  urlunparse : ParseResult -> string;
  hostname : ParseResult -> option string;
  quote : string -> string;
  unquote : string -> string;
  os_path_join : string -> string -> string;
  os_path_dirname : string -> string;
  os_path_basename : string -> string;
  os_path_split : string -> string * string;
  os_getcwd : Env -> outcome string;
  os_path_isfile : Env -> string -> bool;
  os_path_isdir : Env -> string -> bool;
  os_path_exists : Env -> string -> bool;
  importable : Env -> string -> bool;
  perform : Env -> forall a : action, outcome (answer a) * Env
}.

(** ** The monad of the embedding *)

Record world (Env : Type) : Type := World {
  env : Env;
  log : list action
}.
Arguments World {Env} env log.
Arguments env {Env} w.
Arguments log {Env} w.

(** A computation takes the world, and returns a value or raises, in a new
    world. *)
Definition M (Env : Type) (A : Type) : Type :=
  world Env -> outcome A * world Env.

#[global] Instance M_ret {Env} : MRet (M Env) :=
  fun A (a : A) (w : world Env) => (Returned a, w).

#[global] Instance M_bind {Env} : MBind (M Env) :=
  fun A B (k : A -> M Env B) (c : M Env A) (w : world Env) =>
    match c w with
    | (Returned a, w') => k a w'
    | (Raised e, w') => (Raised e, w')
    end.

Definition raise {Env A} (e : exn) : M Env A :=
  fun w => (Raised e, w).

(** Perform an action: the platform answers it and the action is logged. *)
Definition do_ {Env} `{Platform Env} (a : action) : M Env (answer a) :=
  fun w =>
    let (r, e') := perform (env w) a in
    (r, World e' (log w ++ [a])).

(** Read the state of the world without changing it. *)
Definition observe {Env A} (f : Env -> A) : M Env A :=
  fun w => (Returned (f (env w)), w).

Definition observe_or_raise {Env A} (f : Env -> outcome A) : M Env A :=
  fun w => (f (env w), w).

(** [try: body  except <some classes> as e: handler e]; an exception for
    which [handler] is [None] is not caught. *)
Definition try_except {Env A} (body : M Env A)
    (handler : exn -> option (M Env A)) : M Env A :=
  fun w =>
    match body w with
    | (Returned a, w') => (Returned a, w')
    | (Raised e, w') =>
        match handler e with
        | Some h => h w'
        | None => (Raised e, w')
        end
    end.

(** [with <enter> as x: body]: [leave] runs on every exit path of [body]; an
    exception of [body] propagates after it, unless [leave] itself raises. *)
Definition with_ {Env A} (enter : M Env unit) (leave : M Env unit)
    (body : M Env A) : M Env A :=
  fun w =>
    match enter w with
    | (Raised e, w1) => (Raised e, w1)
    | (Returned _, w1) =>
        let (r, w2) := body w1 in
        match leave w2 with
        | (Raised e, w3) => (Raised e, w3)
        | (Returned _, w3) => (r, w3)
        end
    end.

(** [try: body  finally: final]: [final] runs on every exit path of [body];
    the outcome is that of [body], unless [final] itself raises. *)
Definition try_finally {Env A} (body : M Env A) (final : M Env unit)
    : M Env A :=
  fun w =>
    let (r, w1) := body w in
    match final w1 with
    | (Raised e, w2) => (Raised e, w2)
    | (Returned _, w2) => (r, w2)
    end.

(** [for x in xs: acc = body x acc] *)
Fixpoint for_ {Env A B} (xs : list A) (acc : B) (body : A -> B -> M Env B)
    : M Env B :=
  match xs with
  | [] => mret acc
  | x :: xs' => acc' ← body x acc; for_ xs' acc' body
  end.

(** ** Python built-ins used by the code *)

Definition newline : string := String "010"%char EmptyString.

(** [range(start, stop, step)] for a positive [step]: [start], [start+step],
    ... while below [stop].  The recursion is on a fuel; [stop] steps always
    suffice (see [range_aux_enough_fuel]). *)
Fixpoint range_aux (fuel start stop step : nat) : list nat :=
  match fuel with
  | 0 => []
  | S fuel' =>
      if start <? stop
      then start :: range_aux fuel' (start + step) stop step
      else []
  end.

Definition range (start stop step : nat) : list nat :=
  range_aux stop start stop step.

(** [l[start:stop]] *)
Definition slice {A} (l : list A) (start stop : nat) : list A :=
  take (stop - start) (drop start l).

(** [s.split('/')[-1]]: what follows the last ['/'] of [s], or all of [s]
    when it has none. *)
Fixpoint split_last (sep : ascii) (s : string) : string :=
  match s with
  | EmptyString => EmptyString
  | String c s' =>
      if existsb (Ascii.eqb sep) (list_ascii_of_string s')
      then split_last sep s'
      else if Ascii.eqb c sep then s' else s
  end.

(** * [synapseutils/copy.py] *)

Module copy.

(** Modelled from the spec: the page size ("page size = 100 in the reference
    deployment"), a constant of [synapseutils/copy.py], which is not among
    the sources. *)
Definition MAX_FILE_HANDLE_PER_COPY_REQUEST : nat := 100.

(** Modelled from the spec: one [CopyRequestItem] of the request body of
    [POST /filehandles/copy] (section 6 and
    [test_private_json_creator]); [synapseutils/copy.py] is not among the
    sources. *)
Definition copy_request (fileHandleId associateObjectType associateObjectId : string)
    (newContentType newFileName : option string) : json :=
  JDict {[ "originalFile" :=
             JDict {[ "fileHandleId" := JStr fileHandleId;
                      "associateObjectId" := JStr associateObjectId;
                      "associateObjectType" := JStr associateObjectType ]};
           "newContentType" := json_of_optional newContentType;
           "newFileName" := json_of_optional newFileName ]}.

(** Modelled from the spec: the items of a request body, "built by zipping
    the four/five input lists", position by position and in input order. *)
Fixpoint copy_requests (file_handle_ids obj_types obj_ids : list string)
    (new_con_types new_file_names : list (option string)) : list json :=
  match file_handle_ids, obj_types, obj_ids, new_con_types, new_file_names with
  | i :: is', t :: ts', o :: os', c :: cs', f :: fs' =>
      copy_request i t o c f :: copy_requests is' ts' os' cs' fs'
  | _, _, _, _, _ => []
  end.

(** Modelled from the spec: [_create_batch_file_handle_copy_request] of
    [synapseutils/copy.py], which is not among the sources; it returns the
    dict [{"copyRequests": [...]}]. *)
Definition _create_batch_file_handle_copy_request
    (file_handle_ids obj_types obj_ids : list string)
    (new_con_types new_file_names : list (option string)) : json :=
  JDict {[ "copyRequests" :=
             JList (copy_requests file_handle_ids obj_types obj_ids
                      new_con_types new_file_names) ]}.

(** What the copy service reads in a request body: the file handle ids of
    its items, in their order. *)
Definition item_file_handle_id (item : json) : option string :=
  match item with
  | JDict r =>
      match r !! "originalFile" with
      | Some (JDict o) =>
          match o !! "fileHandleId" with
          | Some (JStr i) => Some i
          | _ => None
          end
      | _ => None
      end
  | _ => None
  end.

Definition body_file_handle_ids (body : json) : list string :=
  match body with
  | JDict d =>
      match d !! "copyRequests" with
      | Some (JList items) => omap item_file_handle_id items
      | _ => []
      end
  | _ => []
  end.

(** The number of items of a request body. *)
Definition copy_request_count (body : json) : nat :=
  match body with
  | JDict d =>
      match d !! "copyRequests" with
      | Some (JList items) => length items
      | _ => 0
      end
  | _ => 0
  end.

(** Modelled from the spec: the check of an optional list ("if contentTypes
    or fileNames are supplied, each must have the same length as the
    required lists"). *)
Definition same_length_if_supplied {A} (n : nat) (o : option (list A)) : bool :=
  match o with
  | None => true
  | Some l => length l =? n
  end.

(** Modelled from the spec: the validation of [copyFileHandles] ("required
    lists must be non-empty and of equal length", then the optional
    lists). *)
Definition valid_input (fileHandles associateObjectTypes associateObjectIds : list string)
    (newContentTypes newFileNames : option (list (option string))) : bool :=
  negb (length fileHandles =? 0)
  && (length associateObjectTypes =? length fileHandles)
  && (length associateObjectIds =? length fileHandles)
  && same_length_if_supplied (length fileHandles) newContentTypes
  && same_length_if_supplied (length fileHandles) newFileNames.

Section coordinator.
Context {Env : Type} `{Platform Env}.

(** Modelled from the spec: [_copy_file_handles_batch] of
    [synapseutils/copy.py], which is not among the sources: it builds the
    body of one page and submits it as "a single remote call
    ([POST /filehandles/copy])", returning the response
    ([test_private_copy_batch]). *)
Definition _copy_file_handles_batch
    (file_handle_ids obj_types obj_ids : list string)
    (new_con_types new_file_names : list (option string)) : M Env CopyResponse :=
  do_ (RestPOST "/filehandles/copy"
         (_create_batch_file_handle_copy_request file_handle_ids obj_types
            obj_ids new_con_types new_file_names)).

(** Modelled from the spec: [copyFileHandles] of [synapseutils/copy.py],
    which is not among the sources (section 4.1): validate, default the
    omitted optional lists to lists of [None], then for each slice of
    [MAX_FILE_HANDLE_PER_COPY_REQUEST] indices in ascending order submit one
    page and append its [copyResults] to the accumulated list.  The tests
    fix the class of the validation error, [ValueError], not its message. *)
Definition copyFileHandles
    (fileHandles associateObjectTypes associateObjectIds : list string)
    (newContentTypes newFileNames : option (list (option string)))
    : M Env (list CopyResultItem) :=
  if negb (valid_input fileHandles associateObjectTypes associateObjectIds
             newContentTypes newFileNames)
  then raise (ValueError [])
  else
    let n := length fileHandles in
    let newContentTypes := default (replicate n None) newContentTypes in
    let newFileNames := default (replicate n None) newFileNames in
    for_ (range 0 n MAX_FILE_HANDLE_PER_COPY_REQUEST) []
      (fun start master_copy_results_list =>
         let stop := start + MAX_FILE_HANDLE_PER_COPY_REQUEST in
         batch_copy_results ←
           _copy_file_handles_batch
             (slice fileHandles start stop)
             (slice associateObjectTypes start stop)
             (slice associateObjectIds start stop)
             (slice newContentTypes start stop)
             (slice newFileNames start stop);
         mret (master_copy_results_list ++ copyResults batch_copy_results)).

End coordinator.
End copy.

(** * [synapseclient/remote_file_storage_wrappers.py] *)

Module S3ClientWrapper.

Definition boto3_instructions : string :=
  String.concat newline
    [ EmptyString;
      EmptyString;
      "Libraries required for client authenticated S3 access are not installed!";
      "The Synapse client uses boto3 in order to access S3-like storage locations.";
      "To install this library:";
      "    pip install boto3";
      EmptyString;
      "If additional privileges are required on Unix-based systems such as Linux distributions or Mac OSX:    (sudo) pip install boto3";
      EmptyString;
      "On Windows, right click the Command Prompt(cmd.exe) and select 'Run as administrator' then:    pip install boto3";
      EmptyString;
      EmptyString;
      EmptyString;
      EmptyString;
      EmptyString ].

Section S3ClientWrapper.
Context {Env : Type} `{Platform Env}.

(** [try: import boto3  except ImportError: sys.stderr.write(...); raise] *)
Definition _check_import_boto3 : M Env unit :=
  installed ← observe (fun e => importable e "boto3");
  if installed : bool then mret tt
  else do_ (SysStderrWrite boto3_instructions);; raise (ImportError "boto3").

(** The byte counter of the closure starts at 0; its clock [t0] and the
    printing of the progress line stay inside the transfer primitive that
    calls it. *)
Definition _create_progress_callback_func (file_size : Z) (filename : string)
    (prefix : option string) : progress_callback :=
  mkProgress file_size filename prefix 0.

(** [progress_callback(bytes)]: under the lock,
    [bytes_transferred.value += bytes]. *)
Definition progress_callback_call (cb : progress_callback) (bytes : Z)
    : progress_callback :=
  mkProgress (file_size cb) (filename cb) (prefix cb)
    (bytes_transferred cb + bytes).

(** The body of the [try] of [download_file] *)
Definition download_attempt (bucket remote_file_key download_file_path : string)
    (show_progress : bool) : M Env string :=
  progress_callback ←
    (if show_progress
     then
       file_size ← do_ (S3ObjectLoad bucket remote_file_key);
       let filename := os_path_basename download_file_path in
       mret (Some (_create_progress_callback_func file_size filename
                     (Some "Downloading")))
     else mret None);
  do_ (S3ObjectDownloadFile bucket remote_file_key download_file_path
         progress_callback);;
  mret download_file_path.

(** The [except botocore.exceptions.ClientError as e] clause of
    [download_file]; the bare [raise] re-raises [e] itself. *)
Definition download_handler (bucket remote_file_key : string) (e : exn)
    : option (M Env string) :=
  match e with
  | ClientError code _ =>
      Some (if String.eqb code "404"
            then raise (ValueError ["The key:%s does not exist in bucket:%s.";
                                    remote_file_key; bucket])
            else raise e)
  | _ => None
  end.

Definition download_file (bucket : string) (endpoint_url : option string)
    (remote_file_key download_file_path : string)
    (profile_name : option string) (show_progress : bool) : M Env string :=
  _check_import_boto3;;
  do_ (Boto3Session profile_name);;
  do_ (Boto3Resource "s3" endpoint_url);;
  try_except
    (download_attempt bucket remote_file_key download_file_path show_progress)
    (download_handler bucket remote_file_key).

Definition upload_file (bucket : string) (endpoint_url : option string)
    (remote_file_key upload_file_path : string)
    (profile_name : option string) (show_progress : bool) : M Env string :=
  _check_import_boto3;;
  is_file ← observe (fun e => os_path_isfile e upload_file_path);
  if negb is_file
  then raise (ValueError ["The path: [%s] does not exist or is not a file";
                          upload_file_path])
  else
    do_ (Boto3Session profile_name);;
    do_ (Boto3Resource "s3" endpoint_url);;
    progress_callback ←
      (if show_progress
       then
         file_size ← do_ (OsStat upload_file_path);
         let filename := os_path_basename upload_file_path in
         mret (Some (_create_progress_callback_func file_size filename
                       (Some "Uploading")))
       else mret None);
    do_ (S3BucketUploadFile bucket upload_file_path remote_file_key
           progress_callback);;
    mret upload_file_path.

End S3ClientWrapper.
End S3ClientWrapper.

Module SFTPWrapper.

Definition pysftp_instructions : string :=
  String.concat newline
    [ EmptyString;
      EmptyString;
      "Libraries required for SFTP are not installed!";
      "The Synapse client uses pysftp in order to access SFTP storage locations.  This library in turn depends on pycrypto.";
      "To install these libraries on Unix variants including OS X, make sure the python devel libraries are installed, then:";
      "    (sudo) pip install pysftp";
      EmptyString;
      "For Windows systems without a C/C++ compiler, install the appropriate binary distribution of pycrypto from:";
      "    http://www.voidspace.org.uk/python/modules.shtml#pycrypto";
      EmptyString;
      "For more information, see: http://docs.synapse.org/python/sftp.html";
      EmptyString;
      EmptyString;
      EmptyString ].

Definition sftp_only : string :=
  "This method only supports sftp URLs of the  form sftp://...".

Section SFTPWrapper.
Context {Env : Type} `{Platform Env}.

Definition _check_import_sftp : M Env unit :=
  installed ← observe (fun e => importable e "pysftp");
  if installed : bool then mret tt
  else do_ (SysStderrWrite pysftp_instructions);; raise (ImportError "pysftp").

Definition _parse_for_sftp (url : string) : M Env ParseResult :=
  parsedURL ← observe_or_raise (fun _ => urlparse url);
  if negb (String.eqb (scheme parsedURL) "sftp")
  then raise (NotImplementedError sftp_only)
  else mret parsedURL.

(** [with pysftp.Connection(host, username=..., password=...) as sftp: body] *)
Definition with_connection {A} (host username password : option string)
    (body : M Env A) : M Env A :=
  with_ (do_ (PysftpConnection host username password)) (do_ SftpClose) body.

(** [with sftp.cd(remotepath): body].  The context manager of pysftp
    remembers the directory it starts from, then enters [remotepath] and
    runs the body inside a [try] whose [finally] goes back to that
    directory: it goes back also when entering [remotepath] raises, and an
    exception of the way back replaces the one under way. *)
Definition with_cd {A} (remotepath : string) (body : M Env A) : M Env A :=
  try_finally (do_ (SftpChdir remotepath);; body) (do_ SftpChdirBack).

Definition upload_file (filepath url : string) (username password : option string)
    : M Env string :=
  _check_import_sftp;;
  parsedURL ← _parse_for_sftp url;
  with_connection (hostname parsedURL) username password
    (do_ (SftpMakedirs (path parsedURL));;
     with_cd (path parsedURL) (do_ (SftpPut filepath true)));;
  let path := quote (path parsedURL +:+ "/" +:+ (os_path_split filepath).2) in
  let parsedURL := _replace_path parsedURL path in
  mret (urlunparse parsedURL).

Definition download_file (url : string) (localFilepath : option string)
    (username password : option string) : M Env string :=
  _check_import_sftp;;
  parsedURL ← _parse_for_sftp url;
  let path := unquote (path parsedURL) in
  localFilepath ←
    match localFilepath with
    | None => observe_or_raise os_getcwd
    | Some p => mret p
    end;
  is_dir ← observe (fun e => os_path_isdir e localFilepath);
  let localFilepath :=
    if is_dir : bool
    then os_path_join localFilepath (split_last "/" path)
    else localFilepath in
  let dir := os_path_dirname localFilepath in
  dir_exists ← observe (fun e => os_path_exists e dir);
  (if negb dir_exists then do_ (OsMakedirs dir) else mret tt);;
  with_connection (hostname parsedURL) username password
    (do_ (SftpGet path localFilepath true));;
  mret localFilepath.

End SFTPWrapper.
End SFTPWrapper.

(** * A reference platform

    A concrete [Platform] on which the code above runs by computation: POSIX
    paths, [urllib.parse] on byte strings, a local file system given by its
    directories and files, an S3 endpoint given by its objects, and a copy
    service that answers each request item in order. *)

Module Posix.

Definition chars (s : string) : list ascii := list_ascii_of_string s.
Definition str (l : list ascii) : string := string_of_list_ascii l.

Definition is_slash (c : ascii) : bool := Ascii.eqb c "/".

Fixpoint drop_while {A} (p : A -> bool) (l : list A) : list A :=
  match l with
  | [] => []
  | x :: l' => if p x then drop_while p l' else l
  end.

Fixpoint take_while {A} (p : A -> bool) (l : list A) : list A :=
  match l with
  | [] => []
  | x :: l' => if p x then x :: take_while p l' else []
  end.

(** [posixpath.split]: the head ends before the last slash (trailing slashes
    stripped unless it is all slashes), the tail follows it. *)
Definition os_path_split (p : string) : string * string :=
  let r := rev (chars p) in
  let tail := rev (take_while (fun c => negb (is_slash c)) r) in
  let head := rev (drop_while (fun c => negb (is_slash c)) r) in
  let head :=
    if forallb is_slash head then head
    else rev (drop_while is_slash (rev head)) in
  (str head, str tail).

Definition os_path_dirname (p : string) : string := (os_path_split p).1.
Definition os_path_basename (p : string) : string := (os_path_split p).2.

(** [posixpath.join(a, b)] *)
Definition os_path_join (a b : string) : string :=
  match chars b, rev (chars a) with
  | "/"%char :: _, _ => b
  | _, [] => b
  | _, "/"%char :: _ => a +:+ b
  | _, _ => a +:+ "/" +:+ b
  end.

Definition in_range (lo hi : nat) (c : ascii) : bool :=
  (lo <=? nat_of_ascii c) && (nat_of_ascii c <=? hi).

Definition is_alpha (c : ascii) : bool := in_range 65 90 c || in_range 97 122 c.
Definition is_digit (c : ascii) : bool := in_range 48 57 c.

Definition lower (c : ascii) : ascii :=
  if in_range 65 90 c then ascii_of_nat (nat_of_ascii c + 32) else c.

Definition is_scheme_char (c : ascii) : bool :=
  is_alpha c || is_digit c || existsb (Ascii.eqb c) (chars "+-.").

(** Cut [l] at the first character satisfying [p]: what precedes it, and
    what follows it when there is one. *)
Definition partition_at (p : ascii -> bool) (l : list ascii)
    : list ascii * option (list ascii) :=
  let before := take_while (fun c => negb (p c)) l in
  match drop_while (fun c => negb (p c)) l with
  | [] => (before, None)
  | _ :: after => (before, Some after)
  end.

Definition from_option_chars (o : option (list ascii)) : list ascii :=
  default [] o.

(** [urllib.parse.urlparse] on a byte string: scheme, then [//netloc], then
    fragment, query and the parameters of the last path segment. *)
Definition urlparse (url : string) : outcome ParseResult :=
  let u := chars url in
  let '(sch, rest) :=
    match partition_at (Ascii.eqb ":") u with
    | (c :: pre, Some after) =>
        if is_alpha c && forallb is_scheme_char pre
        then (map lower (c :: pre), after)
        else ([], u)
    | _ => ([], u)
    end in
  let '(loc, rest) :=
    match rest with
    | "/"%char :: "/"%char :: r =>
        let stop c := existsb (Ascii.eqb c) (chars "/?#") in
        (take_while (fun c => negb (stop c)) r,
         drop_while (fun c => negb (stop c)) r)
    | _ => ([], rest)
    end in
  let has c := existsb (Ascii.eqb c) loc in
  if xorb (has "["%char) (has "]"%char)
  then Raised (ValueError ["Invalid IPv6 URL"])
  else
    let '(rest, frag) := partition_at (Ascii.eqb "#") rest in
    let '(rest, qry) := partition_at (Ascii.eqb "?") rest in
    let segment := rev (take_while (fun c => negb (is_slash c)) (rev rest)) in
    let dir := rev (drop_while (fun c => negb (is_slash c)) (rev rest)) in
    let '(segment, prm) := partition_at (Ascii.eqb ";") segment in
    Returned {| scheme := str sch; netloc := str loc;
                path := str (dir ++ segment);
                params := str (from_option_chars prm);
                query := str (from_option_chars qry);
                fragment := str (from_option_chars frag) |}.

(** [ParseResult.hostname]: the netloc without user information and port, in
    lower case; [None] when it is empty. *)
Definition hostname (u : ParseResult) : option string :=
  let loc := chars (netloc u) in
  let hostport := rev (take_while (fun c => negb (Ascii.eqb c "@")) (rev loc)) in
  let host := take_while (fun c => negb (Ascii.eqb c ":")) hostport in
  match host with
  | [] => None
  | _ => Some (str (map lower host))
  end.

Definition uses_netloc : list string :=
  ["ftp"; "http"; "https"; "file"; "sftp"; "svn"; "ssh"; "ws"; "wss"].

Definition is_empty (s : string) : bool := String.eqb s EmptyString.

(** [urllib.parse.urlunparse] *)
Definition urlunparse (u : ParseResult) : string :=
  let url := if is_empty (params u) then path u
             else path u +:+ ";" +:+ params u in
  let url :=
    if negb (is_empty (netloc u))
       || (negb (is_empty (scheme u))
           && existsb (String.eqb (scheme u)) uses_netloc
           && negb (String.prefix "//" url))
    then "//" +:+ netloc u +:+
         (if negb (is_empty url) && negb (String.prefix "/" url)
          then "/" +:+ url else url)
    else url in
  let url := if is_empty (scheme u) then url else scheme u +:+ ":" +:+ url in
  let url := if is_empty (query u) then url else url +:+ "?" +:+ query u in
  if is_empty (fragment u) then url else url +:+ "#" +:+ fragment u.

Definition hex_digit (n : nat) : ascii :=
  nth n (chars "0123456789ABCDEF") "0"%char.

Definition hex_value (c : ascii) : option nat :=
  if is_digit c then Some (nat_of_ascii c - 48)
  else if in_range 65 70 c then Some (nat_of_ascii c - 55)
  else if in_range 97 102 c then Some (nat_of_ascii c - 87)
  else None.

Definition always_safe (c : ascii) : bool :=
  is_alpha c || is_digit c || existsb (Ascii.eqb c) (chars "_.-~").

(** [urllib.parse.quote(s)], with its default [safe='/'] *)
Definition quote (s : string) : string :=
  str (flat_map
         (fun c =>
            if always_safe c || is_slash c then [c]
            else ["%"%char; hex_digit (nat_of_ascii c / 16);
                  hex_digit (nat_of_ascii c mod 16)])
         (chars s)).

(** [urllib.parse.unquote] on a byte string: every [%XX] with two hexadecimal
    digits becomes the byte it names. *)
Fixpoint unquote_chars (l : list ascii) : list ascii :=
  match l with
  | [] => []
  | c :: l' =>
      match l' with
      | h :: k :: l'' =>
          match Ascii.eqb c "%", hex_value h, hex_value k with
          | true, Some a, Some b =>
              ascii_of_nat (16 * a + b) :: unquote_chars l''
          | _, _, _ => c :: unquote_chars l'
          end
      | _ => c :: unquote_chars l'
      end
  end.

Definition unquote (s : string) : string := str (unquote_chars (chars s)).

(** The state of the reference world. *)
Record state : Type := mkState {
  cwd : string;
  directories : list string;
  files : list (string * Z);
  modules : list string;
  s3_objects : list (string * string * Z);
  s3_forbidden : list string
}.

Definition mem (s : string) (l : list string) : bool :=
  existsb (String.eqb s) l.

Definition os_path_isdir (e : state) (p : string) : bool :=
  mem p (directories e).

Definition os_path_isfile (e : state) (p : string) : bool :=
  mem p (map fst (files e)).

Definition os_path_exists (e : state) (p : string) : bool :=
  os_path_isdir e p || os_path_isfile e p.

Definition os_getcwd (e : state) : outcome string :=
  if os_path_isdir e (cwd e) then Returned (cwd e)
  else Raised (OtherError "FileNotFoundError" "No such file or directory").

Definition size_of (e : state) (p : string) : option Z :=
  snd <$> List.find (fun f => String.eqb (fst f) p) (files e).

Definition s3_lookup (e : state) (bucket key : string) : outcome Z :=
  if mem bucket (s3_forbidden e) then Raised (ClientError "403" "Forbidden")
  else
    match List.find (fun o => String.eqb o.1.1 bucket && String.eqb o.1.2 key)
            (s3_objects e) with
    | Some o => Returned o.2
    | None => Raised (ClientError "404" "Not Found")
    end.

Definition add_directory (d : string) (e : state) : state :=
  mkState (cwd e) (d :: directories e) (files e) (modules e) (s3_objects e)
    (s3_forbidden e).

Definition add_file (p : string) (n : Z) (e : state) : state :=
  mkState (cwd e) (directories e) ((p, n) :: files e) (modules e)
    (s3_objects e) (s3_forbidden e).

Definition add_object (bucket key : string) (n : Z) (e : state) : state :=
  mkState (cwd e) (directories e) (files e) (modules e)
    ((bucket, key, n) :: s3_objects e) (s3_forbidden e).

(** The copy service answers the items of a page one by one, in order: the
    handle ["NotAccessibleFile"] may not be copied, every other handle is. *)
Definition copy_one (i : string) : CopyResultItem :=
  if String.eqb i "NotAccessibleFile" then CopyFailure "UNAUTHORIZED" i
  else CopySuccess (JDict {[ "key" := JStr "value" ]}) i.

Definition ok {A} (a : A) (e : state) : outcome A * state := (Returned a, e).

Definition fail {A} (cls msg : string) (e : state) : outcome A * state :=
  (Raised (OtherError cls msg), e).

(** The answers of the reference world. *)
Definition perform (e : state) (a : action) : outcome (answer a) * state :=
  match a as a' return outcome (answer a') * state with
  | SysStderrWrite _ => ok tt e
  | Boto3Session _ => ok tt e
  | Boto3Resource _ _ => ok tt e
  | S3ObjectLoad bucket key => (s3_lookup e bucket key, e)
  | S3ObjectDownloadFile bucket key filename _ =>
      match s3_lookup e bucket key with
      | Returned n => ok tt (add_file filename n e)
      | Raised x => (Raised x, e)
      end
  | S3BucketUploadFile bucket filename key _ =>
      if mem bucket (s3_forbidden e)
      then (Raised (ClientError "403" "Forbidden"), e)
      else
        match size_of e filename with
        | Some n => ok tt (add_object bucket key n e)
        | None => fail "FileNotFoundError" "No such file or directory" e
        end
  | OsStat filename =>
      match size_of e filename with
      | Some n => ok n e
      | None => fail "FileNotFoundError" "No such file or directory" e
      end
  | OsMakedirs dir =>
      if is_empty dir
      then fail "FileNotFoundError" "No such file or directory" e
      else if os_path_exists e dir
      then fail "FileExistsError" "File exists" e
      else ok tt (add_directory dir e)
  | PysftpConnection host _ _ =>
      match host with
      | Some _ => ok tt e
      | None => fail "ConnectionException" "Could not connect" e
      end
  | SftpMakedirs _ => ok tt e
  | SftpChdir _ => ok tt e
  | SftpChdirBack => ok tt e
  | SftpPut localpath _ =>
      if os_path_isfile e localpath then ok tt e
      else fail "FileNotFoundError" "No such file or directory" e
  | SftpGet _ localpath _ => ok tt (add_file localpath 0%Z e)
  | SftpClose => ok tt e
  | RestPOST _ body =>
      ok (mkCopyResponse (map copy_one (copy.body_file_handle_ids body))) e
  end.

#[global] Instance platform : Platform state :=
  Build_Platform state urlparse urlunparse hostname quote unquote
    os_path_join os_path_dirname os_path_basename os_path_split
    os_getcwd os_path_isfile os_path_isdir os_path_exists
    (fun e m => mem m (modules e)) perform.

(** A machine with both transfer libraries installed, one local file, one
    object in the bucket ["data"], and a bucket that refuses access. *)
Definition machine : state :=
  {| cwd := "/home/user";
     directories := ["/"; "/home"; "/home/user"; "/tmp"];
     files := [("/tmp/my file.txt", 16%Z)];
     modules := ["boto3"; "pysftp"];
     s3_objects := [("data", "reports/a.csv", 2048%Z)];
     s3_forbidden := ["private"] |}.

Definition start (e : state) : world state := World e [].

End Posix.

(** * Vocabulary of the statements *)

(** [ceil(n / d)] for a positive [d]; see [ceil_div_spec]. *)
Definition ceil_div (n d : nat) : nat := (n + d - 1) / d.

Section vocabulary.
Context {Env : Type} `{Platform Env}.

(** The remote call succeeds at the transport level, whatever the page. *)
Definition copy_service_answers : Prop :=
  forall (e : Env) (uri : string) (body : json),
    exists r e', perform e (RestPOST uri body) = (Returned r, e').

(** The ordering contract of the copy service: the [copyResults] of a
    response correspond one to one, in order, to the items of the request. *)
Definition copy_service_in_order : Prop :=
  forall (e : Env) (uri : string) (body : json) r e',
    perform e (RestPOST uri body) = (Returned r, e') ->
    map originalFileHandleId (copyResults r) = copy.body_file_handle_ids body.

(** The request body of the page of an input that starts at index [start]. *)
Definition page_body (fileHandles associateObjectTypes associateObjectIds : list string)
    (newContentTypes newFileNames : list (option string)) (start : nat) : json :=
  let stop := start + copy.MAX_FILE_HANDLE_PER_COPY_REQUEST in
  copy._create_batch_file_handle_copy_request
    (slice fileHandles start stop) (slice associateObjectTypes start stop)
    (slice associateObjectIds start stop) (slice newContentTypes start stop)
    (slice newFileNames start stop).

(** The responses of the copy service to a sequence of request bodies
    submitted one after the other from the state [e], up to the first one
    that fails. *)
Fixpoint responses (e : Env) (bodies : list json) : list CopyResponse :=
  match bodies with
  | [] => []
  | body :: bodies' =>
      match perform e (RestPOST "/filehandles/copy" body) with
      | (Returned r, e') => r :: responses e' bodies'
      | (Raised _, _) => []
      end
  end.

End vocabulary.

(** * The data of the unit tests *)

Module Tests.

(** [test_copy_file_handles_multiple_batch] *)
Definition num_copies : nat := 102.
Definition file_handles : list string :=
  map (fun x : nat => pretty x) (seq 0 num_copies).
Definition obj_types : list string := replicate num_copies "FileEntity".
Definition obj_ids : list string :=
  map (fun x : nat => pretty x) (seq 0 num_copies).
Definition con_types : list (option string) :=
  replicate num_copies (Some "text/plain").
Definition file_names : list (option string) :=
  map (fun i : nat => Some ("test" +:+ pretty i)) (seq 0 num_copies).

Definition return_val_of (handles : list string) : list CopyResultItem :=
  map (CopySuccess (JDict {[ "key" := JStr "value" ]})) handles.

(** [test_private_copy_batch] *)
Definition expected_input : json :=
  JDict {[ "copyRequests" :=
    JList
      [ JDict {[ "originalFile" :=
                   JDict {[ "fileHandleId" := JStr "123";
                            "associateObjectId" := JStr "321";
                            "associateObjectType" := JStr "FileEntity" ]};
                 "newContentType" := JNone;
                 "newFileName" := JNone ]};
        JDict {[ "originalFile" :=
                   JDict {[ "fileHandleId" := JStr "456";
                            "associateObjectId" := JStr "645";
                            "associateObjectType" := JStr "FileEntity" ]};
                 "newContentType" := JStr "text/plain";
                 "newFileName" := JStr "test" ]} ] ]}.

End Tests.

(** * The reference platform with faults

    The reference world together with a plan of faults: the plan names the
    actions that fail and the exception each of them raises; every other
    action is answered as in the reference world. *)

Module Faulty.

Definition state : Type := Posix.state * (action -> option exn).

Definition perform (s : state) (a : action) : outcome (answer a) * state :=
  match s.2 a with
  | Some x => (Raised x, s)
  | None =>
      let (r, e') := Posix.perform s.1 a in
      (r, (e', s.2))
  end.

#[global] Instance platform : Platform state :=
  Build_Platform state Posix.urlparse Posix.urlunparse Posix.hostname
    Posix.quote Posix.unquote Posix.os_path_join Posix.os_path_dirname
    Posix.os_path_basename Posix.os_path_split
    (fun s => Posix.os_getcwd s.1) (fun s => Posix.os_path_isfile s.1)
    (fun s => Posix.os_path_isdir s.1) (fun s => Posix.os_path_exists s.1)
    (fun s m => Posix.mem m (Posix.modules s.1)) perform.

Definition start (e : Posix.state) (plan : action -> option exn) : world state :=
  World (e, plan) [].

(** The network is unreachable during the transfer of an S3 object. *)
Definition transfer_fails (a : action) : option exn :=
  match a with
  | S3ObjectDownloadFile _ _ _ _ | S3BucketUploadFile _ _ _ _ =>
      Some (OtherError "EndpointConnectionError" "Could not connect")
  | _ => None
  end.

(** The endpoint answers an upload with a 404. *)
Definition upload_not_found (a : action) : option exn :=
  match a with
  | S3BucketUploadFile _ _ _ _ => Some (ClientError "404" "Not Found")
  | _ => None
  end.

(** The credentials of the profile cannot be resolved: creating the
    resource fails, with a 404 of the credential endpoint. *)
Definition resource_fails (a : action) : option exn :=
  match a with
  | Boto3Resource _ _ => Some (ClientError "404" "Not Found")
  | _ => None
  end.

(** The server refuses to store the file. *)
Definition put_fails (a : action) : option exn :=
  match a with
  | SftpPut _ _ => Some (OtherError "IOError" "Permission denied")
  | _ => None
  end.

(** The server does not let the remote directory be created. *)
Definition remote_directory_fails (a : action) : option exn :=
  match a with
  | SftpMakedirs _ => Some (OtherError "IOError" "Permission denied")
  | _ => None
  end.

(** The remote directory cannot be entered. *)
Definition chdir_fails (a : action) : option exn :=
  match a with
  | SftpChdir _ => Some (OtherError "IOError" "No such file")
  | _ => None
  end.

(** The remote directory cannot be entered, and the session is lost on the
    way back. *)
Definition chdir_and_way_back_fail (a : action) : option exn :=
  match a with
  | SftpChdir _ => Some (OtherError "IOError" "No such file")
  | SftpChdirBack => Some (OtherError "SSHException" "Session lost")
  | _ => None
  end.

(** The server has no such file. *)
Definition get_fails (a : action) : option exn :=
  match a with
  | SftpGet _ _ _ => Some (OtherError "IOError" "No such file")
  | _ => None
  end.

End Faulty.

(** A machine like [Posix.machine] on which neither boto3 nor pysftp is
    installed. *)
Definition bare_machine : Posix.state :=
  Posix.mkState "/home/user" ["/"; "/home"; "/home/user"; "/tmp"]
    [("/tmp/my file.txt", 16%Z)] [] [("data", "reports/a.csv", 2048%Z)]
    ["private"].

(** What [urlparse] makes of
    ["sftp://sftp.example.com/path/to/file store"]. *)
Definition example_url : ParseResult :=
  mkParseResult "sftp" "sftp.example.com" "/path/to/file store"
    EmptyString EmptyString EmptyString.

(** Unfold the operations of the monad. *)
Ltac run := unfold mbind, M_bind, mret, M_ret, raise, observe, observe_or_raise.

(** * Python built-ins *)

Lemma ceil_div_0 d : 0 < d -> ceil_div 0 d = 0.
Proof.
  intros Hd. unfold ceil_div. apply Nat.div_small. lia.
Qed.

Lemma ceil_div_small n d : 0 < n -> n <= d -> ceil_div n d = 1.
Proof.
  intros Hn Hd. unfold ceil_div.
  symmetry. apply (Nat.div_unique _ _ 1 (n - 1)); lia.
Qed.

Lemma ceil_div_step n d : 0 < d -> d <= n -> ceil_div n d = S (ceil_div (n - d) d).
Proof.
  intros Hd Hn. unfold ceil_div.
  replace (n + d - 1) with ((n - d + d - 1) + 1 * d) by lia.
  rewrite Nat.div_add by lia. lia.
Qed.

(** [ceil_div n d] is the least [k] with [n <= k * d]. *)
Lemma ceil_div_spec n d k :
  0 < d -> 0 < n -> ceil_div n d = k <-> (k - 1) * d < n /\ n <= k * d.
Proof.
  intros Hd Hn. unfold ceil_div.
  pose proof (Nat.div_mod_eq (n + d - 1) d) as E.
  pose proof (Nat.mod_upper_bound (n + d - 1) d ltac:(lia)) as B.
  split.
  - intros <-. split; nia.
  - intros [H1 H2]. symmetry. apply (Nat.div_unique _ _ k (n + d - 1 - k * d)); nia.
Qed.

(** With as much fuel as [range] gives it, [range_aux] lists the whole
    progression. *)
Lemma range_aux_enough_fuel fuel start stop step :
  0 < step -> stop - start <= fuel ->
  range_aux fuel start stop step
  = map (fun k => start + k * step) (seq 0 (ceil_div (stop - start) step)).
Proof.
  intros Hstep. revert start.
  induction fuel as [|fuel IH]; intros start Hfuel; simpl.
  - replace (stop - start) with 0 by lia. by rewrite ceil_div_0.
  - destruct (Nat.ltb_spec start stop) as [Hlt|Hge].
    + rewrite IH by lia.
      destruct (Nat.le_gt_cases step (stop - start)) as [Hbig|Hsmall].
      * rewrite (ceil_div_step (stop - start)) by lia.
        cbn [seq map]. rewrite <- seq_shift, map_map.
        replace (stop - (start + step)) with (stop - start - step) by lia.
        f_equal; [lia|]. apply map_ext. intros k. lia.
      * rewrite (ceil_div_small (stop - start)) by lia.
        replace (stop - (start + step)) with 0 by lia.
        rewrite ceil_div_0 by lia. simpl. f_equal. lia.
    + replace (stop - start) with 0 by lia. by rewrite ceil_div_0.
Qed.

Lemma range_from_0 n step :
  0 < step -> range 0 n step = map (fun k => k * step) (seq 0 (ceil_div n step)).
Proof.
  intros Hstep. unfold range.
  rewrite range_aux_enough_fuel by lia. by rewrite Nat.sub_0_r.
Qed.

Lemma length_slice {A} (l : list A) start stop :
  length (slice l start stop) = Nat.min (stop - start) (length l - start).
Proof. unfold slice. by rewrite length_take, length_drop. Qed.

(** The consecutive slices of a list, put end to end, give the list back. *)
Lemma slices_aux {A} (l : list A) fuel start step :
  0 < step -> length l - start <= fuel ->
  flat_map (fun s => slice l s (s + step)) (range_aux fuel start (length l) step)
  = drop start l.
Proof.
  intros Hstep. revert start.
  induction fuel as [|fuel IH]; intros start Hfuel; simpl.
  - symmetry. apply drop_ge. lia.
  - destruct (Nat.ltb_spec start (length l)) as [Hlt|Hge].
    + simpl. rewrite IH by lia. unfold slice.
      replace (start + step - start) with step by lia.
      replace (drop (start + step) l) with (drop step (drop start l))
        by (by rewrite drop_drop).
      apply take_drop.
    + symmetry. apply drop_ge. lia.
Qed.

Lemma slices_concat {A} (l : list A) step :
  0 < step ->
  flat_map (fun s => slice l s (s + step)) (range 0 (length l) step) = l.
Proof.
  intros Hstep. unfold range. rewrite slices_aux by lia. apply drop_0.
Qed.

(** * The monad *)

Lemma bind_returned {Env A B} (c : M Env A) (k : A -> M Env B) w a w' :
  c w = (Returned a, w') -> (c ≫= k) w = k a w'.
Proof. intros E. run. by rewrite E. Qed.

Lemma bind_raised {Env A B} (c : M Env A) (k : A -> M Env B) w e w' :
  c w = (Raised e, w') -> (c ≫= k) w = (Raised e, w').
Proof. intros E. run. by rewrite E. Qed.

Lemma do_returned {Env} `{Platform Env} (a : action) (w : world Env) r e' :
  perform (env w) a = (Returned r, e') ->
  do_ a w = (Returned r, World e' (log w ++ [a])).
Proof. intros E. unfold do_. by rewrite E. Qed.

Lemma try_except_caught {Env A} (body : M Env A) handler w e w' h :
  body w = (Raised e, w') -> handler e = Some h ->
  try_except body handler w = h w'.
Proof. intros E Hh. unfold try_except. by rewrite E, Hh. Qed.

Lemma bind_inv_returned {Env A B} (c : M Env A) (k : A -> M Env B) w b w' :
  (c ≫= k) w = (Returned b, w') ->
  exists a w1, c w = (Returned a, w1) /\ k a w1 = (Returned b, w').
Proof.
  run. destruct (c w) as [[a|e] w1]; [eauto | done].
Qed.

Lemma with_returned {Env A} (enter leave : M Env unit) (body : M Env A)
    w w1 r w2 w3 :
  enter w = (Returned tt, w1) -> body w1 = (r, w2) ->
  leave w2 = (Returned tt, w3) ->
  with_ enter leave body w = (r, w3).
Proof. intros E1 E2 E3. unfold with_. by rewrite E1, E2, E3. Qed.

(** * The request body *)

Section request_body.
Import copy.

Lemma copy_requests_length ids tys oids cts fns :
  length tys = length ids -> length oids = length ids ->
  length cts = length ids -> length fns = length ids ->
  length (copy_requests ids tys oids cts fns) = length ids.
Proof.
  revert tys oids cts fns.
  induction ids as [|i ids IH]; intros [|t tys] [|o oids] [|c cts] [|f fns];
    simpl; try done.
  intros. f_equal. apply IH; lia.
Qed.

Lemma item_file_handle_id_copy_request i t o c f :
  item_file_handle_id (copy_request i t o c f) = Some i.
Proof.
  unfold item_file_handle_id, copy_request.
  by rewrite !lookup_insert_eq.
Qed.

Lemma file_handle_ids_copy_requests ids tys oids cts fns :
  length tys = length ids -> length oids = length ids ->
  length cts = length ids -> length fns = length ids ->
  omap item_file_handle_id (copy_requests ids tys oids cts fns) = ids.
Proof.
  revert tys oids cts fns.
  induction ids as [|i ids IH]; intros [|t tys] [|o oids] [|c cts] [|f fns];
    try done.
  intros. cbn [copy_requests omap list_omap].
  rewrite item_file_handle_id_copy_request. f_equal. apply IH; simpl in *; lia.
Qed.

Lemma copy_request_count_batch ids tys oids cts fns :
  length tys = length ids -> length oids = length ids ->
  length cts = length ids -> length fns = length ids ->
  copy_request_count
    (_create_batch_file_handle_copy_request ids tys oids cts fns)
  = length ids.
Proof.
  intros. unfold copy_request_count, _create_batch_file_handle_copy_request.
  rewrite lookup_singleton_eq. by apply copy_requests_length.
Qed.

Lemma body_file_handle_ids_batch ids tys oids cts fns :
  length tys = length ids -> length oids = length ids ->
  length cts = length ids -> length fns = length ids ->
  body_file_handle_ids
    (_create_batch_file_handle_copy_request ids tys oids cts fns)
  = ids.
Proof.
  intros. unfold body_file_handle_ids, _create_batch_file_handle_copy_request.
  rewrite lookup_singleton_eq. by apply file_handle_ids_copy_requests.
Qed.

End request_body.

(** * [copyFileHandles] *)

Section coordinator_proofs.
Context {Env : Type} `{Platform Env}.
Import copy.

Lemma valid_input_true fh ty ids cts fns :
  valid_input fh ty ids cts fns = true ->
  0 < length fh /\ length ty = length fh /\ length ids = length fh
  /\ length (default (replicate (length fh) None) cts) = length fh
  /\ length (default (replicate (length fh) None) fns) = length fh.
Proof.
  unfold valid_input, same_length_if_supplied. intros Hv.
  repeat (apply andb_prop in Hv as [Hv ?]).
  apply negb_true_iff, Nat.eqb_neq in Hv.
  repeat match goal with
         | E : (_ =? _) = true |- _ => apply Nat.eqb_eq in E
         end.
  repeat split; try lia.
  - destruct cts; simpl; [by apply Nat.eqb_eq | apply length_replicate].
  - destruct fns; simpl; [by apply Nat.eqb_eq | apply length_replicate].
Qed.

(** The loop of [copyFileHandles], from any accumulator and any world: when
    the service answers, every page is submitted, in the order of [starts],
    and the results of the responses are appended in that order. *)
Lemma copy_loop fh ty ids cts fns :
  copy_service_answers ->
  forall (starts : list nat) (acc : list CopyResultItem) (w : world Env),
    let bodies := map (page_body fh ty ids cts fns) starts in
    exists e',
      for_ starts acc
        (fun start master_copy_results_list =>
           let stop := start + MAX_FILE_HANDLE_PER_COPY_REQUEST in
           batch_copy_results ←
             _copy_file_handles_batch (slice fh start stop)
               (slice ty start stop) (slice ids start stop)
               (slice cts start stop) (slice fns start stop);
           mret (master_copy_results_list ++ copyResults batch_copy_results)) w
      = (Returned (acc ++ flat_map copyResults (responses (env w) bodies)),
         World e' (log w ++ map (RestPOST "/filehandles/copy") bodies))
      /\ length (responses (env w) bodies) = length starts.
Proof.
  intros Hans starts.
  induction starts as [|start starts IH]; intros acc w bodies.
  - exists (env w). subst bodies. simpl. rewrite !app_nil_r.
    by destruct w.
  - destruct (Hans (env w) "/filehandles/copy"
                (page_body fh ty ids cts fns start)) as (r & e1 & E).
    destruct (IH (acc ++ copyResults r) (World e1 (log w ++ [RestPOST "/filehandles/copy" (page_body fh ty ids cts fns start)])))
      as (e' & Eloop & Elen).
    exists e'. subst bodies. cbn [map responses for_].
    rewrite E. cbn [flat_map length]. split; [|by rewrite <- Elen].
    assert (_copy_file_handles_batch
              (slice fh start (start + MAX_FILE_HANDLE_PER_COPY_REQUEST))
              (slice ty start (start + MAX_FILE_HANDLE_PER_COPY_REQUEST))
              (slice ids start (start + MAX_FILE_HANDLE_PER_COPY_REQUEST))
              (slice cts start (start + MAX_FILE_HANDLE_PER_COPY_REQUEST))
              (slice fns start (start + MAX_FILE_HANDLE_PER_COPY_REQUEST)) w
            = (Returned r,
               World e1 (log w ++ [RestPOST "/filehandles/copy"
                                     (page_body fh ty ids cts fns start)])))
      as Ebatch by exact (do_returned _ w r e1 E).
    etrans.
    { apply (bind_returned _ _ w (acc ++ copyResults r)
               (World e1 (log w ++ [RestPOST "/filehandles/copy"
                                      (page_body fh ty ids cts fns start)]))).
      cbv beta zeta. by rewrite (bind_returned _ _ _ _ _ Ebatch). }
    cbv beta. etrans; [exact Eloop|]. cbn [env log].
    by rewrite <- !app_assoc.
Qed.

Lemma page_count fh ty ids cts fns start :
  length ty = length fh -> length ids = length fh ->
  length cts = length fh -> length fns = length fh ->
  copy_request_count (page_body fh ty ids cts fns start)
  = Nat.min MAX_FILE_HANDLE_PER_COPY_REQUEST (length fh - start).
Proof.
  intros. unfold page_body.
  rewrite copy_request_count_batch by (rewrite !length_slice; lia).
  rewrite length_slice. f_equal. lia.
Qed.

Lemma page_file_handle_ids fh ty ids cts fns start :
  length ty = length fh -> length ids = length fh ->
  length cts = length fh -> length fns = length fh ->
  body_file_handle_ids (page_body fh ty ids cts fns start)
  = slice fh start (start + MAX_FILE_HANDLE_PER_COPY_REQUEST).
Proof.
  intros. unfold page_body.
  by rewrite body_file_handle_ids_batch by (rewrite !length_slice; lia).
Qed.

(** Every page but the last is full; the last holds what remains. *)
Lemma page_count_of_page fh ty ids cts fns k :
  0 < length fh ->
  length ty = length fh -> length ids = length fh ->
  length cts = length fh -> length fns = length fh ->
  k < ceil_div (length fh) MAX_FILE_HANDLE_PER_COPY_REQUEST ->
  copy_request_count
    (page_body fh ty ids cts fns (k * MAX_FILE_HANDLE_PER_COPY_REQUEST))
  = if decide (k + 1 < ceil_div (length fh) MAX_FILE_HANDLE_PER_COPY_REQUEST)
    then MAX_FILE_HANDLE_PER_COPY_REQUEST
    else length fh - k * MAX_FILE_HANDLE_PER_COPY_REQUEST.
Proof.
  intros Hpos ? ? ? ? Hk. rewrite page_count by done.
  unfold MAX_FILE_HANDLE_PER_COPY_REQUEST in *.
  destruct (ceil_div_spec (length fh) 100 (ceil_div (length fh) 100))
    as [[Hlo Hhi] _]; [lia | lia | done |].
  case_decide; lia.
Qed.

End coordinator_proofs.

Section coordinator_order.
Context {Env : Type} `{Platform Env}.
Import copy.

Lemma flat_map_fmap {A B C} (f : B -> list C) (g : A -> B) (l : list A) :
  flat_map f (map g l) = flat_map (fun x => f (g x)) l.
Proof. induction l as [|x l IH]; simpl; [done | by rewrite IH]. Qed.

(** Under the ordering contract, the results of the responses to a sequence
    of pages name the file handles of these pages, page after page. *)
Lemma responses_in_order :
  copy_service_answers -> copy_service_in_order ->
  forall (bodies : list json) (e : Env),
    map originalFileHandleId (flat_map copyResults (responses e bodies))
    = flat_map body_file_handle_ids bodies.
Proof.
  intros Hans Hord bodies.
  induction bodies as [|body bodies IH]; intros e; [done|].
  destruct (Hans e "/filehandles/copy" body) as (r & e1 & E).
  cbn [responses flat_map]. rewrite E. cbn [flat_map].
  by rewrite map_app, IH, (Hord _ _ _ _ _ E).
Qed.

Lemma range_single n step : 0 < n -> n <= step -> range 0 n step = [0].
Proof.
  intros Hn Hstep. rewrite range_from_0 by lia.
  by rewrite ceil_div_small by lia.
Qed.

Lemma slice_all {A} (l : list A) stop : length l <= stop -> slice l 0 stop = l.
Proof.
  intros Hl. unfold slice. rewrite drop_0. apply take_ge. lia.
Qed.

(** An input of at most one page: the response of the single call is what
    [copyFileHandles] returns. *)
Lemma copyFileHandles_single_page (w : world Env) fh ty ids cts fns r e' :
  valid_input fh ty ids cts fns = true ->
  length fh <= MAX_FILE_HANDLE_PER_COPY_REQUEST ->
  let body :=
    _create_batch_file_handle_copy_request fh ty ids
      (default (replicate (length fh) None) cts)
      (default (replicate (length fh) None) fns) in
  perform (env w) (RestPOST "/filehandles/copy" body) = (Returned r, e') ->
  copyFileHandles fh ty ids cts fns w
  = (Returned (copyResults r),
     World e' (log w ++ [RestPOST "/filehandles/copy" body])).
Proof.
  intros Hvalid Hlen body E.
  destruct (valid_input_true _ _ _ _ _ Hvalid) as (Hpos & Hty & Hids & Hcts & Hfns).
  unfold copyFileHandles. rewrite Hvalid. cbn [negb].
  rewrite range_single by done. cbn [for_]. cbv zeta.
  rewrite !slice_all by lia.
  assert (_copy_file_handles_batch fh ty ids
            (default (replicate (length fh) None) cts)
            (default (replicate (length fh) None) fns) w
          = (Returned r, World e' (log w ++ [RestPOST "/filehandles/copy" body])))
    as Ebatch by exact (do_returned _ w r e' E).
  etrans.
  { apply (bind_returned _ _ w (copyResults r)
             (World e' (log w ++ [RestPOST "/filehandles/copy" body]))).
    by rewrite (bind_returned _ _ _ _ _ Ebatch). }
  done.
Qed.

End coordinator_order.

Section coordinator_claims.
Context {Env : Type} `{Platform Env}.
Import copy.

(** C1.  For a valid input of [n] file handles, when the copy service
    answers, [copyFileHandles] returns after exactly [ceil(n / 100)] remote
    calls and logs nothing else: call number [k] submits the page of the
    indices from [100 * k], in ascending order; every page but the last has
    exactly 100 items and the last has the remaining ones, between 1 and
    100; for [n = 102] the calls carry 100 and 2 items. *)
Theorem copyFileHandles_one_call_per_page
    (w : world Env) (fh ty ids : list string)
    (cts fns : option (list (option string))) :
  copy_service_answers ->
  valid_input fh ty ids cts fns = true ->
  let n := length fh in
  let pages := ceil_div n MAX_FILE_HANDLE_PER_COPY_REQUEST in
  let bodies :=
    map (fun k => page_body fh ty ids (default (replicate n None) cts)
                    (default (replicate n None) fns)
                    (k * MAX_FILE_HANDLE_PER_COPY_REQUEST))
        (seq 0 pages) in
  MAX_FILE_HANDLE_PER_COPY_REQUEST = 100
  /\ exists results w',
       copyFileHandles fh ty ids cts fns w = (Returned results, w')
       /\ log w' = log w ++ map (RestPOST "/filehandles/copy") bodies
       /\ length bodies = pages
       /\ (forall k body, bodies !! k = Some body ->
             copy_request_count body
             = if k + 1 <? pages then MAX_FILE_HANDLE_PER_COPY_REQUEST
               else n - k * MAX_FILE_HANDLE_PER_COPY_REQUEST)
       /\ 0 < n - (pages - 1) * MAX_FILE_HANDLE_PER_COPY_REQUEST
          <= MAX_FILE_HANDLE_PER_COPY_REQUEST
       /\ (n = 102 -> map copy_request_count bodies = [100; 2]).
Proof.
  intros Hans Hvalid n pages bodies. split; [done|].
  destruct (valid_input_true _ _ _ _ _ Hvalid) as (Hpos & Hty & Hids & Hcts & Hfns).
  fold n in Hpos, Hty, Hids, Hcts, Hfns.
  destruct (copy_loop fh ty ids (default (replicate n None) cts)
              (default (replicate n None) fns) Hans
              (range 0 n MAX_FILE_HANDLE_PER_COPY_REQUEST) [] w)
    as (e' & Eloop & _).
  assert (Ebodies :
            map (page_body fh ty ids (default (replicate n None) cts)
                   (default (replicate n None) fns))
              (range 0 n MAX_FILE_HANDLE_PER_COPY_REQUEST) = bodies).
  { rewrite range_from_0 by (unfold MAX_FILE_HANDLE_PER_COPY_REQUEST; lia).
    by rewrite map_map. }
  rewrite Ebodies in Eloop.
  assert (Hcount : forall k, k < pages ->
            copy_request_count
              (page_body fh ty ids (default (replicate n None) cts)
                 (default (replicate n None) fns)
                 (k * MAX_FILE_HANDLE_PER_COPY_REQUEST))
            = if k + 1 <? pages then MAX_FILE_HANDLE_PER_COPY_REQUEST
              else n - k * MAX_FILE_HANDLE_PER_COPY_REQUEST).
  { intros k Hk. rewrite page_count_of_page by done.
    fold n pages. case_decide; destruct (Nat.ltb_spec (k + 1) pages); lia. }
  eexists _, _. split; [|split; [|split; [|split; [|split]]]].
  - unfold copyFileHandles. rewrite Hvalid. exact Eloop.
  - done.
  - subst bodies. by rewrite length_map, length_seq.
  - intros k body Hk. subst bodies.
    rewrite list_lookup_fmap in Hk.
    destruct (seq 0 pages !! k) as [j|] eqn:Ej; [|done].
    apply lookup_seq in Ej as [-> Hlt]. simplify_eq/=. by apply Hcount.
  - destruct (ceil_div_spec n MAX_FILE_HANDLE_PER_COPY_REQUEST pages)
      as [[Hlo Hhi] _]; try done.
    { unfold MAX_FILE_HANDLE_PER_COPY_REQUEST; lia. }
    unfold MAX_FILE_HANDLE_PER_COPY_REQUEST in *. lia.
  - intros Hn. subst bodies. rewrite map_map.
    erewrite map_ext_in; last first.
    { intros k Hk. apply in_seq in Hk. apply Hcount. lia. }
    subst pages. rewrite Hn. reflexivity.
Qed.

(** C2.  For a valid input of [n] file handles, when the copy service
    answers, the list that [copyFileHandles] returns is the concatenation,
    in page order, of the [copyResults] of the responses to its pages; and
    when the service keeps its ordering contract the list has length [n]
    and names the file handles in the order of the input list. *)
Theorem copyFileHandles_concatenates_in_order
    (w : world Env) (fh ty ids : list string)
    (cts fns : option (list (option string))) :
  copy_service_answers ->
  valid_input fh ty ids cts fns = true ->
  let n := length fh in
  let pages := ceil_div n MAX_FILE_HANDLE_PER_COPY_REQUEST in
  let bodies :=
    map (fun k => page_body fh ty ids (default (replicate n None) cts)
                    (default (replicate n None) fns)
                    (k * MAX_FILE_HANDLE_PER_COPY_REQUEST))
        (seq 0 pages) in
  let answers := responses (env w) bodies in
  exists w',
    copyFileHandles fh ty ids cts fns w
    = (Returned (concat (map copyResults answers)), w')
    /\ length answers = pages
    /\ (copy_service_in_order ->
        length (concat (map copyResults answers)) = n
        /\ map originalFileHandleId (concat (map copyResults answers)) = fh).
Proof.
  intros Hans Hvalid n pages bodies answers.
  destruct (valid_input_true _ _ _ _ _ Hvalid) as (Hpos & Hty & Hids & Hcts & Hfns).
  fold n in Hpos, Hty, Hids, Hcts, Hfns.
  pose proof (copy_loop fh ty ids (default (replicate n None) cts)
                (default (replicate n None) fns) Hans
                (range 0 n MAX_FILE_HANDLE_PER_COPY_REQUEST) [] w) as Hloop.
  cbv zeta in Hloop.
  assert (Ebodies :
            map (page_body fh ty ids (default (replicate n None) cts)
                   (default (replicate n None) fns))
              (range 0 n MAX_FILE_HANDLE_PER_COPY_REQUEST) = bodies).
  { rewrite range_from_0 by (unfold MAX_FILE_HANDLE_PER_COPY_REQUEST; lia).
    by rewrite map_map. }
  destruct Hloop as (e' & Eloop & Elen).
  rewrite <- !flat_map_concat_map.
  assert (Hnames : copy_service_in_order ->
            map originalFileHandleId (flat_map copyResults answers) = fh).
  { intros Hord. subst answers.
    rewrite (responses_in_order Hans Hord), <- Ebodies, flat_map_fmap.
    erewrite flat_map_ext; last first.
    { intros start. by apply page_file_handle_ids. }
    apply slices_concat. unfold MAX_FILE_HANDLE_PER_COPY_REQUEST. lia. }
  rewrite Ebodies in Eloop, Elen.
  eexists. split; [|split].
  - unfold copyFileHandles. rewrite Hvalid. exact Eloop.
  - fold answers in Elen. rewrite Elen, range_from_0, length_map, length_seq; [done|].
    unfold MAX_FILE_HANDLE_PER_COPY_REQUEST. lia.
  - intros Hord. split; [|by apply Hnames].
    by rewrite <- (length_map originalFileHandleId), Hnames.
Qed.

(** C3.  When one of the three required lists is empty, or two of them
    differ in length, or a supplied optional list differs in length from
    the file handles, [copyFileHandles] raises [ValueError] (the
    InvalidArgument of the tests) and leaves the world as it was: nothing
    is logged, so no remote call is made. *)
Theorem copyFileHandles_invalid_input
    (w : world Env) (fh ty ids : list string)
    (cts fns : option (list (option string))) :
  fh = [] \/ ty = [] \/ ids = []
  \/ length ty <> length fh \/ length ids <> length fh
  \/ (exists l, cts = Some l /\ length l <> length fh)
  \/ (exists l, fns = Some l /\ length l <> length fh) ->
  copyFileHandles fh ty ids cts fns w = (Raised (ValueError []), w).
Proof.
  intros Hbad. unfold copyFileHandles.
  destruct (valid_input fh ty ids cts fns) eqn:Hvalid; [|done].
  exfalso.
  destruct (valid_input_true _ _ _ _ _ Hvalid) as (Hpos & Hty & Hids & Hcts & Hfns).
  destruct Hbad as [->|[->|[->|[?|[?|[(l & -> & ?)|(l & -> & ?)]]]]]];
    simpl in *; lia.
Qed.

(** C4.  The request body built from the five parallel lists of
    [test_private_json_creator] is the expected nested dict: two entries in
    input order, each with its [originalFile] dict and with [newFileName]
    and [newContentType] beside it. *)
Theorem create_batch_file_handle_copy_request_example :
  _create_batch_file_handle_copy_request
    ["345"; "789"] ["FileEntity"; "FileEntity"] ["543"; "987"]
    [None; Some "text/plain"] [None; Some "test"]
  = JDict {[ "copyRequests" :=
      JList
        [ JDict {[ "originalFile" :=
                     JDict {[ "fileHandleId" := JStr "345";
                              "associateObjectId" := JStr "543";
                              "associateObjectType" := JStr "FileEntity" ]};
                   "newFileName" := JNone;
                   "newContentType" := JNone ]};
          JDict {[ "originalFile" :=
                     JDict {[ "fileHandleId" := JStr "789";
                              "associateObjectId" := JStr "987";
                              "associateObjectType" := JStr "FileEntity" ]};
                   "newFileName" := JStr "test";
                   "newContentType" := JStr "text/plain" ]} ] ]}.
Proof. vm_compute. reflexivity. Qed.

(** C5.  A per-item failure is not an exception.  When the call for a page
    of two file handles returns a response with one success item and one
    item carrying a [failureCode], [copyFileHandles] returns exactly these
    two items, in that order, after that one call. *)
Theorem copyFileHandles_mixed_result
    (w : world Env) (i1 i2 t1 t2 o1 o2 : string) (c1 c2 f1 f2 : option string)
    (newFileHandle : json) (failureCode orig1 orig2 : string) (e' : Env) :
  let body :=
    _create_batch_file_handle_copy_request [i1; i2] [t1; t2] [o1; o2]
      [c1; c2] [f1; f2] in
  perform (env w) (RestPOST "/filehandles/copy" body)
  = (Returned (mkCopyResponse [CopySuccess newFileHandle orig1;
                               CopyFailure failureCode orig2]), e') ->
  copyFileHandles [i1; i2] [t1; t2] [o1; o2] (Some [c1; c2]) (Some [f1; f2]) w
  = (Returned [CopySuccess newFileHandle orig1; CopyFailure failureCode orig2],
     World e' (log w ++ [RestPOST "/filehandles/copy" body])).
Proof.
  intros body E.
  by rewrite (copyFileHandles_single_page w [i1; i2] [t1; t2] [o1; o2]
                (Some [c1; c2]) (Some [f1; f2]) _ e' eq_refl
                ltac:(unfold MAX_FILE_HANDLE_PER_COPY_REQUEST; simpl; lia) E).
Qed.

End coordinator_claims.

(** * [S3ClientWrapper] *)

Section s3_claims.
Context {Env : Type} `{Platform Env}.
Import S3ClientWrapper.

Lemma check_import_boto3_installed (w : world Env) :
  importable (env w) "boto3" = true -> _check_import_boto3 w = (Returned tt, w).
Proof. intros E. unfold _check_import_boto3. run. by rewrite E. Qed.

(** Without boto3 the check raises, and only writes to [stderr]. *)
Lemma check_import_boto3_missing (w : world Env) :
  importable (env w) "boto3" = false ->
  exists x e',
    _check_import_boto3 w
    = (Raised x, World e' (log w ++ [SysStderrWrite boto3_instructions])).
Proof.
  intros E. unfold _check_import_boto3. run. rewrite E. unfold do_.
  destruct (perform (env w) (SysStderrWrite boto3_instructions)) as [[[]|x] e'];
    cbn [env log]; eauto.
Qed.

(** C6.  An S3 download that reaches the backend and gets a [ClientError]
    from it (while loading the object or transferring it): with the error
    code ["404"], [download_file] raises its own [ValueError], whose
    arguments name the key and the bucket (the NotFound of the
    specification); with any other code it raises the same [ClientError]
    again, unchanged. *)
Theorem s3_download_file_client_error
    (w : world Env) (bucket : string) (endpoint_url : option string)
    (remote_file_key download_file_path : string)
    (profile_name : option string) (show_progress : bool)
    (e1 e2 : Env) (code message : string) (w' : world Env) :
  importable (env w) "boto3" = true ->
  perform (env w) (Boto3Session profile_name) = (Returned tt, e1) ->
  perform e1 (Boto3Resource "s3" endpoint_url) = (Returned tt, e2) ->
  download_attempt bucket remote_file_key download_file_path show_progress
    (World e2 (log w ++ [Boto3Session profile_name;
                         Boto3Resource "s3" endpoint_url]))
  = (Raised (ClientError code message), w') ->
  download_file bucket endpoint_url remote_file_key download_file_path
    profile_name show_progress w
  = (Raised (if String.eqb code "404"
             then ValueError ["The key:%s does not exist in bucket:%s.";
                              remote_file_key; bucket]
             else ClientError code message), w').
Proof.
  intros Himp Esession Eresource Eattempt. unfold download_file.
  rewrite (bind_returned _ _ _ _ _ (check_import_boto3_installed w Himp)).
  rewrite (bind_returned _ _ _ _ _
             (do_returned (Boto3Session profile_name) w tt e1 Esession)).
  erewrite bind_returned; last first.
  { by apply (do_returned (Boto3Resource "s3" endpoint_url)
                (World e1 (log w ++ [Boto3Session profile_name])) tt e2). }
  cbn [log]. rewrite <- app_assoc. cbn [app].
  erewrite try_except_caught; [|exact Eattempt|reflexivity].
  by destruct (String.eqb code "404").
Qed.

(** C7.  An S3 upload whose source path is not an existing regular file
    raises before any network activity: nothing but the instructions for
    a missing boto3 can have been logged, and when boto3 is installed the
    error is the [ValueError] naming the path (InvalidArgument), in an
    untouched world. *)
Theorem s3_upload_file_missing_source
    (w : world Env) (bucket : string) (endpoint_url : option string)
    (remote_file_key upload_file_path : string)
    (profile_name : option string) (show_progress : bool) :
  os_path_isfile (env w) upload_file_path = false ->
  (importable (env w) "boto3" = true ->
   upload_file bucket endpoint_url remote_file_key upload_file_path
     profile_name show_progress w
   = (Raised (ValueError ["The path: [%s] does not exist or is not a file";
                          upload_file_path]), w))
  /\ exists x w' logged,
       upload_file bucket endpoint_url remote_file_key upload_file_path
         profile_name show_progress w = (Raised x, w')
       /\ log w' = log w ++ logged
       /\ forallb (fun a => negb (is_network a)) logged = true.
Proof.
  intros Hfile.
  assert (Hinstalled : importable (env w) "boto3" = true ->
            upload_file bucket endpoint_url remote_file_key upload_file_path
              profile_name show_progress w
            = (Raised (ValueError
                         ["The path: [%s] does not exist or is not a file";
                          upload_file_path]), w)).
  { intros Himp. unfold upload_file.
    rewrite (bind_returned _ _ _ _ _ (check_import_boto3_installed w Himp)).
    run. by rewrite Hfile. }
  split; [done|].
  destruct (importable (env w) "boto3") eqn:Himp.
  - eexists _, w, []. rewrite Hinstalled by done.
    by rewrite app_nil_r.
  - destruct (check_import_boto3_missing w Himp) as (x & e' & E).
    eexists x, _, [SysStderrWrite boto3_instructions].
    unfold upload_file. by rewrite (bind_raised _ _ _ _ _ E).
Qed.

End s3_claims.

(** * [SFTPWrapper] *)

Section sftp_claims.
Context {Env : Type} `{Platform Env}.
Import SFTPWrapper.

Lemma check_import_sftp_installed (w : world Env) :
  importable (env w) "pysftp" = true -> _check_import_sftp w = (Returned tt, w).
Proof. intros E. unfold _check_import_sftp. run. by rewrite E. Qed.

Lemma parse_for_sftp_accepts (w : world Env) url parsedURL :
  urlparse url = Returned parsedURL -> scheme parsedURL = "sftp" ->
  _parse_for_sftp url w = (Returned parsedURL, w).
Proof.
  intros E Hs. unfold _parse_for_sftp. run. by rewrite E, Hs.
Qed.

Lemma parse_for_sftp_rejects (w : world Env) url parsedURL :
  urlparse url = Returned parsedURL -> scheme parsedURL <> "sftp" ->
  _parse_for_sftp url w
  = (Raised (NotImplementedError sftp_only), w).
Proof.
  intros E Hs. unfold _parse_for_sftp. run. rewrite E.
  by destruct (String.eqb_spec (scheme parsedURL) "sftp").
Qed.

Lemma parse_for_sftp_returned (w w' : world Env) url parsedURL :
  _parse_for_sftp url w = (Returned parsedURL, w') ->
  urlparse url = Returned parsedURL /\ scheme parsedURL = "sftp".
Proof.
  unfold _parse_for_sftp. run.
  destruct (urlparse url) as [u|x]; [|done].
  destruct (String.eqb_spec (scheme u) "sftp"); simpl; [|done].
  by intros [= -> _].
Qed.

(** C8, as the code has it.  A successful SFTP upload returns the URL put
    together again by [urlunparse] from the parts of the given URL, with
    the path replaced by the percent-encoded [quote] of the remote
    directory, a slash and the name of the local file; a successful S3
    upload returns the local source path it was given, unchanged. *)
Theorem upload_file_return_value :
  (forall (w w' : world Env) (filepath url : string)
          (username password : option string) (result : string),
      SFTPWrapper.upload_file filepath url username password w
      = (Returned result, w') ->
      exists parsedURL,
        urlparse url = Returned parsedURL
        /\ result
           = urlunparse
               (_replace_path parsedURL
                  (quote (path parsedURL +:+ "/" +:+ (os_path_split filepath).2))))
  /\ (forall (w w' : world Env) (bucket : string) (endpoint_url : option string)
             (remote_file_key upload_file_path : string)
             (profile_name : option string) (show_progress : bool)
             (result : string),
        S3ClientWrapper.upload_file bucket endpoint_url remote_file_key
          upload_file_path profile_name show_progress w
        = (Returned result, w') ->
        result = upload_file_path).
Proof.
  split.
  - intros w w' filepath url username password result E.
    unfold SFTPWrapper.upload_file in E.
    apply bind_inv_returned in E as (? & w1 & _ & E).
    apply bind_inv_returned in E as (parsedURL & w2 & Eparse & E).
    apply bind_inv_returned in E as (? & w3 & _ & E).
    apply parse_for_sftp_returned in Eparse as [Eparse _].
    exists parsedURL. split; [done|]. by inversion E.
  - intros w w' bucket endpoint_url remote_file_key upload_file_path
      profile_name show_progress result E.
    unfold S3ClientWrapper.upload_file in E.
    apply bind_inv_returned in E as (? & w1 & _ & E).
    apply bind_inv_returned in E as (is_file & w2 & _ & E).
    destruct is_file; [|done]. cbn [negb] in E.
    apply bind_inv_returned in E as (? & w3 & _ & E).
    apply bind_inv_returned in E as (? & w4 & _ & E).
    apply bind_inv_returned in E as (? & w5 & _ & E).
    apply bind_inv_returned in E as (? & w6 & _ & E).
    by inversion E.
Qed.

(** Without pysftp the check raises, and only writes to [stderr]. *)
Lemma check_import_sftp_missing (w : world Env) :
  importable (env w) "pysftp" = false ->
  exists x e',
    _check_import_sftp w
    = (Raised x, World e' (log w ++ [SysStderrWrite pysftp_instructions])).
Proof.
  intros E. unfold _check_import_sftp. run. rewrite E. unfold do_.
  destruct (perform (env w) (SysStderrWrite pysftp_instructions)) as [[[]|x] e'];
    cbn [env log]; eauto.
Qed.

(** C9.  An SFTP upload or download whose URL parses with a scheme other
    than [sftp] is refused before any connection is opened: the call
    raises having logged no session, connection or transfer, and with
    pysftp installed the error is the [NotImplementedError] of
    [_parse_for_sftp], by which the code signals this malformed input (the
    InvalidArgument of the specification), raised in an untouched world.
    A URL that parses with the scheme [sftp] passes the check, which raises
    nothing and returns the parsed URL. *)
Theorem sftp_scheme_check
    (w : world Env) (url : string) (parsedURL : ParseResult) :
  urlparse url = Returned parsedURL ->
  (importable (env w) "pysftp" = true ->
   (scheme parsedURL <> "sftp" ->
    forall (filepath : string) (localFilepath username password : option string),
      SFTPWrapper.upload_file filepath url username password w
      = (Raised (NotImplementedError sftp_only), w)
      /\ SFTPWrapper.download_file url localFilepath username password w
         = (Raised (NotImplementedError sftp_only), w))
   /\ (scheme parsedURL = "sftp" ->
       _parse_for_sftp url w = (Returned parsedURL, w)))
  /\ (scheme parsedURL <> "sftp" ->
      forall (filepath : string) (localFilepath username password : option string),
        (exists x w' logged,
            SFTPWrapper.upload_file filepath url username password w
            = (Raised x, w')
            /\ log w' = log w ++ logged
            /\ forallb (fun a => negb (is_network a)) logged = true)
        /\ (exists x w' logged,
               SFTPWrapper.download_file url localFilepath username password w
               = (Raised x, w')
               /\ log w' = log w ++ logged
               /\ forallb (fun a => negb (is_network a)) logged = true)).
Proof.
  intros Eparse.
  assert (Hinstalled :
            importable (env w) "pysftp" = true ->
            scheme parsedURL <> "sftp" ->
            forall (filepath : string)
                   (localFilepath username password : option string),
              SFTPWrapper.upload_file filepath url username password w
              = (Raised (NotImplementedError sftp_only), w)
              /\ SFTPWrapper.download_file url localFilepath username password w
                 = (Raised (NotImplementedError sftp_only), w)).
  { intros Himp Hscheme filepath localFilepath username password.
    pose proof (parse_for_sftp_rejects w url parsedURL Eparse Hscheme) as E.
    unfold SFTPWrapper.upload_file, SFTPWrapper.download_file.
    rewrite !(bind_returned _ _ _ _ _ (check_import_sftp_installed w Himp)).
    by rewrite !(bind_raised _ _ _ _ _ E). }
  split.
  - intros Himp. split; [by apply Hinstalled|].
    intros Hscheme. by apply parse_for_sftp_accepts.
  - intros Hscheme filepath localFilepath username password.
    destruct (importable (env w) "pysftp") eqn:Himp.
    + destruct (Hinstalled eq_refl Hscheme filepath localFilepath username
                  password) as [Eup Edown].
      split; eexists _, w, []; rewrite ?Eup, ?Edown; by rewrite app_nil_r.
    + destruct (check_import_sftp_missing w Himp) as (x & e' & E).
      split; eexists x, _, [SysStderrWrite pysftp_instructions];
        unfold SFTPWrapper.upload_file, SFTPWrapper.download_file;
        by rewrite (bind_raised _ _ _ _ _ E).
Qed.

(** C10.  The destination of an SFTP download.  The base is the given
    [localFilepath], or the current working directory when it is [None];
    when the base is an existing directory the file goes inside it, under
    the last component of the unquoted URL path.  When the directory of
    the destination does not exist, [os.makedirs] creates it before the
    connection is opened; then the file is fetched to the destination and
    the destination is returned. *)
Theorem sftp_download_file_destination
    (w : world Env) (url : string) (localFilepath username password : option string)
    (parsedURL : ParseResult) (base : string) (e1 e2 e3 e4 : Env) :
  importable (env w) "pysftp" = true ->
  urlparse url = Returned parsedURL ->
  scheme parsedURL = "sftp" ->
  match localFilepath with
  | None => os_getcwd (env w) = Returned base
  | Some p => p = base
  end ->
  let remote := unquote (path parsedURL) in
  let dest :=
    if os_path_isdir (env w) base
    then os_path_join base (split_last "/" remote)
    else base in
  let dir := os_path_dirname dest in
  (if os_path_exists (env w) dir then e1 = env w
   else perform (env w) (OsMakedirs dir) = (Returned tt, e1)) ->
  perform e1 (PysftpConnection (hostname parsedURL) username password)
  = (Returned tt, e2) ->
  perform e2 (SftpGet remote dest true) = (Returned tt, e3) ->
  perform e3 SftpClose = (Returned tt, e4) ->
  SFTPWrapper.download_file url localFilepath username password w
  = (Returned dest,
     World e4
       (log w
        ++ (if os_path_exists (env w) dir then [] else [OsMakedirs dir])
        ++ [PysftpConnection (hostname parsedURL) username password;
            SftpGet remote dest true; SftpClose]))
  /\ (os_path_isdir (env w) base = true ->
      dest = os_path_join base (split_last "/" (unquote (path parsedURL)))).
Proof.
  intros Himp Eparse Hscheme Hbase remote dest dir Hdir Econn Eget Eclose.
  split; [|by intros Hisdir; subst dest; rewrite Hisdir].
  unfold SFTPWrapper.download_file.
  rewrite (bind_returned _ _ _ _ _ (check_import_sftp_installed w Himp)).
  rewrite (bind_returned _ _ _ _ _
             (parse_for_sftp_accepts w url parsedURL Eparse Hscheme)).
  cbv zeta.
  assert (Ebase : match localFilepath with
                  | None => observe_or_raise os_getcwd
                  | Some p => mret p
                  end w = (Returned base, w)).
  { destruct localFilepath as [p|]; run; [by subst | by rewrite Hbase]. }
  rewrite (bind_returned _ _ _ _ _ Ebase).
  erewrite bind_returned; [|reflexivity].
  erewrite bind_returned; [|reflexivity].
  fold remote dest dir.
  set (w1 := World e1 (log w ++ (if os_path_exists (env w) dir
                                 then [] else [OsMakedirs dir]))).
  assert (Emk : (if negb (os_path_exists (env w) dir)
                 then do_ (OsMakedirs dir) else mret tt) w = (Returned tt, w1)).
  { subst w1. destruct (os_path_exists (env w) dir); cbn [negb].
    - subst e1. rewrite app_nil_r. by destruct w.
    - by apply (do_returned (OsMakedirs dir)). }
  rewrite (bind_returned _ _ _ _ _ Emk).
  erewrite bind_returned; last first.
  { unfold SFTPWrapper.with_connection.
    eapply with_returned.
    - by apply (do_returned
                  (PysftpConnection (hostname parsedURL) username password) w1 tt e2).
    - by apply (do_returned (SftpGet remote dest true)
                  (World e2 (log w1 ++ [PysftpConnection (hostname parsedURL)
                                          username password])) tt e3).
    - by apply (do_returned SftpClose
                  (World e3 ((log w1 ++ [PysftpConnection (hostname parsedURL)
                                           username password])
                             ++ [SftpGet remote dest true])) tt e4). }
  run. subst w1. cbn [log]. by rewrite <- !app_assoc.
Qed.

End sftp_claims.

(** * The unit tests, on the reference platform *)

Section reference_platform.
Import Posix.

Lemma posix_copy_service_answers : copy_service_answers (Env := state).
Proof. intros e uri body. by eexists _, _. Qed.

Lemma original_of_copy_one i : originalFileHandleId (copy_one i) = i.
Proof. unfold copy_one. by destruct (String.eqb i "NotAccessibleFile"). Qed.

Lemma posix_copy_service_in_order : copy_service_in_order (Env := state).
Proof.
  intros e uri body r e' E. injection E as <- _. cbn [copyResults].
  rewrite map_map. erewrite map_ext; [apply map_id|].
  intros i. apply original_of_copy_one.
Qed.

End reference_platform.

(** [test_private_copy_batch]: one call, with the expected body. *)
Example test_private_copy_batch :
  log (snd (copy._copy_file_handles_batch ["123"; "456"]
              ["FileEntity"; "FileEntity"] ["321"; "645"]
              [None; Some "text/plain"] [None; Some "test"]
              (Posix.start Posix.machine)))
  = [RestPOST "/filehandles/copy" Tests.expected_input].
Proof. vm_compute. reflexivity. Qed.

(** [test_copy_file_handles_multiple_batch]: the two calls are made with the
    slices [[:100]] and [[100:200]] of the five lists. *)
Example test_copy_file_handles_multiple_batch :
  log (snd (copy.copyFileHandles Tests.file_handles Tests.obj_types
              Tests.obj_ids (Some Tests.con_types) (Some Tests.file_names)
              (Posix.start Posix.machine)))
  = [RestPOST "/filehandles/copy"
       (copy._create_batch_file_handle_copy_request
          (slice Tests.file_handles 0 100) (slice Tests.obj_types 0 100)
          (slice Tests.obj_ids 0 100) (slice Tests.con_types 0 100)
          (slice Tests.file_names 0 100));
     RestPOST "/filehandles/copy"
       (copy._create_batch_file_handle_copy_request
          (slice Tests.file_handles 100 200) (slice Tests.obj_types 100 200)
          (slice Tests.obj_ids 100 200) (slice Tests.con_types 100 200)
          (slice Tests.file_names 100 200))].
Proof. reflexivity. Qed.

(** [test_copy_file_handles_multiple_batch]: 102 file handles go out in two
    calls, of 100 and of 2 items. *)
Lemma copyFileHandles_one_call_per_page_witness :
  exists results w' bodies,
    copy.copyFileHandles Tests.file_handles Tests.obj_types Tests.obj_ids
      (Some Tests.con_types) (Some Tests.file_names) (Posix.start Posix.machine)
    = (Returned results, w')
    /\ log w' = map (RestPOST "/filehandles/copy") bodies
    /\ map copy.copy_request_count bodies = [100; 2].
Proof.
  destruct (copyFileHandles_one_call_per_page (Posix.start Posix.machine)
              Tests.file_handles Tests.obj_types Tests.obj_ids
              (Some Tests.con_types) (Some Tests.file_names)
              posix_copy_service_answers ltac:(vm_compute; reflexivity))
    as (_ & results & w' & E & Elog & _ & _ & _ & H102).
  exists results, w'. eexists. split; [exact E|]. split; [exact Elog|].
  apply H102. vm_compute. reflexivity.
Defined.

(** The same test: the returned list is the results of the first page
    followed by those of the second, 102 items that name the file handles
    in input order. *)
Lemma copyFileHandles_concatenates_in_order_witness :
  exists w',
    copy.copyFileHandles Tests.file_handles Tests.obj_types Tests.obj_ids
      (Some Tests.con_types) (Some Tests.file_names) (Posix.start Posix.machine)
    = (Returned (Tests.return_val_of (take 100 Tests.file_handles)
                 ++ Tests.return_val_of (drop 100 Tests.file_handles)), w')
    /\ length (Tests.return_val_of (take 100 Tests.file_handles)
               ++ Tests.return_val_of (drop 100 Tests.file_handles)) = 102
    /\ map originalFileHandleId
         (Tests.return_val_of (take 100 Tests.file_handles)
          ++ Tests.return_val_of (drop 100 Tests.file_handles))
       = Tests.file_handles.
Proof.
  destruct (copyFileHandles_concatenates_in_order (Posix.start Posix.machine)
              Tests.file_handles Tests.obj_types Tests.obj_ids
              (Some Tests.con_types) (Some Tests.file_names)
              posix_copy_service_answers ltac:(vm_compute; reflexivity))
    as (w' & E & _ & Hord).
  destruct (Hord posix_copy_service_in_order) as [Hlen Hnames].
  exists w'.
  assert (Eres :
    concat (map copyResults
              (responses (env (Posix.start Posix.machine))
                 (map (fun k => page_body Tests.file_handles Tests.obj_types
                                  Tests.obj_ids
                                  (default (replicate (length Tests.file_handles) None)
                                     (Some Tests.con_types))
                                  (default (replicate (length Tests.file_handles) None)
                                     (Some Tests.file_names))
                                  (k * copy.MAX_FILE_HANDLE_PER_COPY_REQUEST))
                    (seq 0 (ceil_div (length Tests.file_handles)
                              copy.MAX_FILE_HANDLE_PER_COPY_REQUEST)))))
    = Tests.return_val_of (take 100 Tests.file_handles)
      ++ Tests.return_val_of (drop 100 Tests.file_handles))
    by (vm_compute; reflexivity).
  rewrite Eres in E, Hlen, Hnames. by repeat split.
Defined.

(** [test_copy_invalid_input_required_params] and
    [test_copy_invalid_input_optional_params]: a [ValueError] and no call. *)
Lemma copyFileHandles_invalid_input_witness :
  copy.copyFileHandles ["test"] [] ["123"] None None (Posix.start Posix.machine)
  = (Raised (ValueError []), Posix.start Posix.machine)
  /\ copy.copyFileHandles ["test1"; "test2"] ["FileEntity"; "FileEntity"]
       ["123"; "456"] (Some [Some "too"; Some "many"; Some "args"])
       (Some [Some "too_few_args"]) (Posix.start Posix.machine)
     = (Raised (ValueError []), Posix.start Posix.machine).
Proof.
  split.
  - apply copyFileHandles_invalid_input. right. left. reflexivity.
  - apply copyFileHandles_invalid_input. do 5 right. left.
    eexists. split; [reflexivity|]. simpl. lia.
Defined.

(** [test_mixed_result_response]: the copy of ["789"] succeeds, that of
    ["NotAccessibleFile"] is refused, and both items come back. *)
Lemma copyFileHandles_mixed_result_witness :
  fst (copy.copyFileHandles ["789"; "NotAccessibleFile"]
         ["FileEntity"; "FileEntity"] ["0987"; "2352"]
         (Some [None; Some "text/plain"]) (Some [None; Some "testName"])
         (Posix.start Posix.machine))
  = Returned [CopySuccess (JDict {[ "key" := JStr "value" ]}) "789";
              CopyFailure "UNAUTHORIZED" "NotAccessibleFile"].
Proof.
  erewrite copyFileHandles_mixed_result; [reflexivity|].
  vm_compute. reflexivity.
Defined.

(** A missing key gives the [ValueError] that names key and bucket; a
    refused access gives back the backend's own error. *)
Lemma s3_download_file_client_error_witness :
  S3ClientWrapper.download_file "data" None "missing" "/tmp/a.csv" None true
    (Posix.start Posix.machine)
  = (Raised (ValueError ["The key:%s does not exist in bucket:%s.";
                         "missing"; "data"]),
     World Posix.machine
       [Boto3Session None; Boto3Resource "s3" None;
        S3ObjectLoad "data" "missing"])
  /\ S3ClientWrapper.download_file "private" None "reports/a.csv" "/tmp/a.csv"
       None false (Posix.start Posix.machine)
     = (Raised (ClientError "403" "Forbidden"),
        World Posix.machine
          [Boto3Session None; Boto3Resource "s3" None;
           S3ObjectDownloadFile "private" "reports/a.csv" "/tmp/a.csv" None]).
Proof.
  split.
  - apply (s3_download_file_client_error (Posix.start Posix.machine)
             "data" None "missing" "/tmp/a.csv" None true
             Posix.machine Posix.machine "404" "Not Found");
      vm_compute; reflexivity.
  - apply (s3_download_file_client_error (Posix.start Posix.machine)
             "private" None "reports/a.csv" "/tmp/a.csv" None false
             Posix.machine Posix.machine "403" "Forbidden");
      vm_compute; reflexivity.
Defined.

(** No file ["/tmp/nothing"]: the upload raises and the log stays empty. *)
Lemma s3_upload_file_missing_source_witness :
  S3ClientWrapper.upload_file "data" None "reports/b.csv" "/tmp/nothing" None
    true (Posix.start Posix.machine)
  = (Raised (ValueError ["The path: [%s] does not exist or is not a file";
                         "/tmp/nothing"]),
     Posix.start Posix.machine).
Proof.
  apply (s3_upload_file_missing_source (Posix.start Posix.machine)
           "data" None "reports/b.csv" "/tmp/nothing" None true);
    vm_compute; reflexivity.
Defined.

(** C8, counterexample.  An S3 upload that succeeds returns the local path
    ["/tmp/my file.txt"]: not a URL, not percent-encoded (its space is
    still there), and the same whatever the bucket and the key of the
    uploaded object. *)
Lemma s3_upload_file_returns_local_path :
  fst (S3ClientWrapper.upload_file "data" None "reports/my file.txt"
         "/tmp/my file.txt" None true (Posix.start Posix.machine))
  = Returned "/tmp/my file.txt"
  /\ fst (S3ClientWrapper.upload_file "archive" None "2019/other.txt"
            "/tmp/my file.txt" None true (Posix.start Posix.machine))
     = Returned "/tmp/my file.txt"
  /\ Posix.quote "/tmp/my file.txt" = "/tmp/my%20file.txt"
  /\ Posix.urlparse "/tmp/my file.txt"
     = Returned (mkParseResult EmptyString EmptyString "/tmp/my file.txt"
                   EmptyString EmptyString EmptyString)
  /\ "/tmp/my file.txt"
     <> Posix.urlunparse
          (mkParseResult EmptyString EmptyString
             (Posix.quote "/tmp/my file.txt") EmptyString EmptyString
             EmptyString).
Proof. by vm_compute. Qed.

(** The SFTP upload returns the reassembled URL with the quoted path, the
    S3 upload the path of the local file. *)
Lemma upload_file_return_value_witness :
  fst (SFTPWrapper.upload_file "/tmp/my file.txt"
         "sftp://sftp.example.com/path/to/file store" None None
         (Posix.start Posix.machine))
  = Returned "sftp://sftp.example.com/path/to/file%20store/my%20file.txt"
  /\ fst (S3ClientWrapper.upload_file "data" None "reports/my file.txt"
            "/tmp/my file.txt" None true (Posix.start Posix.machine))
     = Returned "/tmp/my file.txt".
Proof.
  destruct (upload_file_return_value (Env := Posix.state)) as [Hsftp Hs3].
  split.
  - destruct (SFTPWrapper.upload_file "/tmp/my file.txt"
                "sftp://sftp.example.com/path/to/file store" None None
                (Posix.start Posix.machine)) as [r w'] eqn:E.
    assert (exists result, r = Returned result) as [result ->]
      by (vm_compute in E; injection E as <- _; by eexists).
    destruct (Hsftp _ _ _ _ _ _ _ E) as (parsedURL & Eparse & ->).
    vm_compute in Eparse. injection Eparse as <-. reflexivity.
  - destruct (S3ClientWrapper.upload_file "data" None "reports/my file.txt"
                "/tmp/my file.txt" None true (Posix.start Posix.machine))
      as [r w'] eqn:E.
    assert (exists result, r = Returned result) as [result ->]
      by (vm_compute in E; injection E as <- _; by eexists).
    by rewrite (Hs3 _ _ _ _ _ _ _ _ _ E).
Defined.

(** An [http] URL is refused by upload and download with nothing logged; an
    [sftp] URL passes the check. *)
Lemma sftp_scheme_check_witness :
  (SFTPWrapper.upload_file "/tmp/my file.txt" "http://sftp.example.com/path"
     None None (Posix.start Posix.machine)
   = (Raised (NotImplementedError SFTPWrapper.sftp_only),
      Posix.start Posix.machine)
   /\ SFTPWrapper.download_file "http://sftp.example.com/path" None None None
        (Posix.start Posix.machine)
      = (Raised (NotImplementedError SFTPWrapper.sftp_only),
         Posix.start Posix.machine))
  /\ fst (SFTPWrapper._parse_for_sftp "sftp://sftp.example.com/path"
            (Posix.start Posix.machine))
     = Returned (mkParseResult "sftp" "sftp.example.com" "/path"
                   EmptyString EmptyString EmptyString).
Proof.
  split.
  - apply (proj1 (proj1 (@sftp_scheme_check Posix.state Posix.platform
                           (Posix.start Posix.machine)
                           "http://sftp.example.com/path"
                           (mkParseResult "http" "sftp.example.com" "/path"
                              EmptyString EmptyString EmptyString)
                           ltac:(vm_compute; reflexivity))
                    ltac:(vm_compute; reflexivity)));
      by vm_compute.
  - erewrite (proj2 (proj1 (@sftp_scheme_check Posix.state Posix.platform
                              (Posix.start Posix.machine)
                              "sftp://sftp.example.com/path"
                              (mkParseResult "sftp" "sftp.example.com" "/path"
                                 EmptyString EmptyString EmptyString)
                              ltac:(vm_compute; reflexivity))
                       ltac:(vm_compute; reflexivity)));
      reflexivity.
Defined.

(** A download with no [localFilepath] lands in the working directory; one
    to a path under a directory that does not exist yet creates it first. *)
Lemma sftp_download_file_destination_witness :
  SFTPWrapper.download_file "sftp://sftp.example.com/path/to/my%20data.csv"
    None None None (Posix.start Posix.machine)
  = (Returned "/home/user/my data.csv",
     World (Posix.add_file "/home/user/my data.csv" 0%Z Posix.machine)
       [PysftpConnection (Some "sftp.example.com") None None;
        SftpGet "/path/to/my data.csv" "/home/user/my data.csv" true;
        SftpClose])
  /\ "/home/user/my data.csv" = Posix.os_path_join "/home/user" "my data.csv"
  /\ SFTPWrapper.download_file "sftp://sftp.example.com/path/to/my%20data.csv"
       (Some "/tmp/new/out.csv") None None (Posix.start Posix.machine)
     = (Returned "/tmp/new/out.csv",
        World (Posix.add_file "/tmp/new/out.csv" 0%Z
                 (Posix.add_directory "/tmp/new" Posix.machine))
          [OsMakedirs "/tmp/new";
           PysftpConnection (Some "sftp.example.com") None None;
           SftpGet "/path/to/my data.csv" "/tmp/new/out.csv" true;
           SftpClose]).
Proof.
  pose proof (@sftp_download_file_destination Posix.state Posix.platform
                (Posix.start Posix.machine)
                "sftp://sftp.example.com/path/to/my%20data.csv" None None None
                (mkParseResult "sftp" "sftp.example.com"
                   "/path/to/my%20data.csv" EmptyString EmptyString EmptyString)
                "/home/user" Posix.machine Posix.machine
                (Posix.add_file "/home/user/my data.csv" 0%Z Posix.machine)
                (Posix.add_file "/home/user/my data.csv" 0%Z Posix.machine)
                ltac:(vm_compute; reflexivity) ltac:(vm_compute; reflexivity)
                ltac:(vm_compute; reflexivity) ltac:(vm_compute; reflexivity)
                ltac:(vm_compute; reflexivity) ltac:(vm_compute; reflexivity)
                ltac:(vm_compute; reflexivity) ltac:(vm_compute; reflexivity))
    as [E Hdest].
  pose proof (@sftp_download_file_destination Posix.state Posix.platform
                (Posix.start Posix.machine)
                "sftp://sftp.example.com/path/to/my%20data.csv"
                (Some "/tmp/new/out.csv") None None
                (mkParseResult "sftp" "sftp.example.com"
                   "/path/to/my%20data.csv" EmptyString EmptyString EmptyString)
                "/tmp/new/out.csv"
                (Posix.add_directory "/tmp/new" Posix.machine)
                (Posix.add_directory "/tmp/new" Posix.machine)
                (Posix.add_file "/tmp/new/out.csv" 0%Z
                   (Posix.add_directory "/tmp/new" Posix.machine))
                (Posix.add_file "/tmp/new/out.csv" 0%Z
                   (Posix.add_directory "/tmp/new" Posix.machine))
                ltac:(vm_compute; reflexivity) ltac:(vm_compute; reflexivity)
                ltac:(vm_compute; reflexivity) ltac:(vm_compute; reflexivity)
                ltac:(vm_compute; reflexivity) ltac:(vm_compute; reflexivity)
                ltac:(vm_compute; reflexivity) ltac:(vm_compute; reflexivity))
    as [E' _].
  split; [exact E | split; [exact (Hdest ltac:(vm_compute; reflexivity))|]].
  exact E'.
Defined.

(** * More of the monad *)

Lemma do_bind_returned {Env B} `{Platform Env} (a : action)
    (k : answer a -> M Env B) (w : world Env) r e' :
  perform (env w) a = (Returned r, e') ->
  (do_ a ≫= k) w = k r (World e' (log w ++ [a])).
Proof. intros E. apply bind_returned. by apply do_returned. Qed.

Lemma do_bind_raised {Env B} `{Platform Env} (a : action)
    (k : answer a -> M Env B) (w : world Env) x e' :
  perform (env w) a = (Raised x, e') ->
  (do_ a ≫= k) w = (Raised x, World e' (log w ++ [a])).
Proof.
  intros E. apply bind_raised. unfold do_. by rewrite E.
Qed.

Lemma try_except_returned {Env A} (body : M Env A) handler w a w' :
  body w = (Returned a, w') -> try_except body handler w = (Returned a, w').
Proof. intros E. unfold try_except. by rewrite E. Qed.

Lemma try_except_uncaught {Env A} (body : M Env A) handler w e w' :
  body w = (Raised e, w') -> handler e = None ->
  try_except body handler w = (Raised e, w').
Proof. intros E Hh. unfold try_except. by rewrite E, Hh. Qed.

(** * More of [S3ClientWrapper] *)

Section s3_extras.
Context {Env : Type} `{Platform Env}.
Import S3ClientWrapper.

Lemma check_import_boto3_missing_written (w : world Env) e' :
  importable (env w) "boto3" = false ->
  perform (env w) (SysStderrWrite boto3_instructions) = (Returned tt, e') ->
  _check_import_boto3 w
  = (Raised (ImportError "boto3"),
     World e' (log w ++ [SysStderrWrite boto3_instructions])).
Proof.
  intros Himp E. unfold _check_import_boto3. run. rewrite Himp.
  unfold do_. by rewrite E.
Qed.

(** X1.  Without boto3, a download and an upload both write the
    installation instructions to [stderr] and raise the [ImportError] again:
    no session is created, and an upload does not even look at its source
    path. *)
Theorem s3_missing_boto3
    (w : world Env) (bucket : string) (endpoint_url : option string)
    (remote_file_key local_path : string)
    (profile_name : option string) (show_progress : bool) (e' : Env) :
  importable (env w) "boto3" = false ->
  perform (env w) (SysStderrWrite boto3_instructions) = (Returned tt, e') ->
  download_file bucket endpoint_url remote_file_key local_path profile_name
    show_progress w
  = (Raised (ImportError "boto3"),
     World e' (log w ++ [SysStderrWrite boto3_instructions]))
  /\ upload_file bucket endpoint_url remote_file_key local_path profile_name
       show_progress w
     = (Raised (ImportError "boto3"),
        World e' (log w ++ [SysStderrWrite boto3_instructions])).
Proof.
  intros Himp E.
  pose proof (check_import_boto3_missing_written w e' Himp E) as Echeck.
  unfold download_file, upload_file.
  by rewrite !(bind_raised _ _ _ _ _ Echeck).
Qed.

(** The world in which the body of the [try] of [download_file] starts. *)
Lemma download_file_reaches_try (w : world Env) bucket endpoint_url
    remote_file_key download_file_path profile_name show_progress e1 e2 :
  importable (env w) "boto3" = true ->
  perform (env w) (Boto3Session profile_name) = (Returned tt, e1) ->
  perform e1 (Boto3Resource "s3" endpoint_url) = (Returned tt, e2) ->
  download_file bucket endpoint_url remote_file_key download_file_path
    profile_name show_progress w
  = try_except
      (download_attempt bucket remote_file_key download_file_path show_progress)
      (download_handler bucket remote_file_key)
      (World e2 (log w ++ [Boto3Session profile_name;
                           Boto3Resource "s3" endpoint_url])).
Proof.
  intros Himp Esession Eresource. unfold download_file.
  rewrite (bind_returned _ _ _ _ _ (check_import_boto3_installed w Himp)).
  rewrite (do_bind_returned (Boto3Session profile_name) _ w tt e1 Esession).
  rewrite (do_bind_returned (Boto3Resource "s3" endpoint_url) _
             (World e1 (log w ++ [Boto3Session profile_name])) tt e2 Eresource).
  cbn [log]. by rewrite <- app_assoc.
Qed.


(** X2.  A download that goes through returns the local path it was given.
    With [show_progress] the object is loaded first and the transfer gets a
    callback that counts from 0 up to the content length, labelled with the
    base name of the local path; without it no metadata is requested and
    the transfer gets no callback. *)
Theorem s3_download_file_success
    (w : world Env) (bucket : string) (endpoint_url : option string)
    (remote_file_key download_file_path : string)
    (profile_name : option string) (show_progress : bool)
    (content_length : Z) (e1 e2 e3 e4 : Env) :
  importable (env w) "boto3" = true ->
  perform (env w) (Boto3Session profile_name) = (Returned tt, e1) ->
  perform e1 (Boto3Resource "s3" endpoint_url) = (Returned tt, e2) ->
  (if show_progress
   then perform e2 (S3ObjectLoad bucket remote_file_key)
        = (Returned content_length, e3)
   else e3 = e2) ->
  let Callback :=
    if show_progress
    then Some (mkProgress content_length (os_path_basename download_file_path)
                 (Some "Downloading") 0)
    else None in
  perform e3 (S3ObjectDownloadFile bucket remote_file_key download_file_path
                Callback) = (Returned tt, e4) ->
  download_file bucket endpoint_url remote_file_key download_file_path
    profile_name show_progress w
  = (Returned download_file_path,
     World e4
       (log w
        ++ [Boto3Session profile_name; Boto3Resource "s3" endpoint_url]
        ++ (if show_progress then [S3ObjectLoad bucket remote_file_key] else [])
        ++ [S3ObjectDownloadFile bucket remote_file_key download_file_path
              Callback])).
Proof.
  intros Himp Esession Eresource Eload Callback Edownload.
  rewrite (download_file_reaches_try w _ _ _ _ _ _ e1 e2 Himp Esession Eresource).
  unfold try_except, download_attempt, _create_progress_callback_func, do_.
  run. subst Callback.
  destruct show_progress; cbn [env log].
  - rewrite Eload. cbn [env log]. rewrite Edownload.
    cbn [env log]. by rewrite <- !app_assoc.
  - subst e3. rewrite Edownload. cbn [env log]. by rewrite <- !app_assoc.
Qed.


(** X3.  Only [ClientError] is caught: any other exception raised while
    loading or transferring the object leaves [download_file] as it is. *)
Theorem s3_download_file_other_error
    (w : world Env) (bucket : string) (endpoint_url : option string)
    (remote_file_key download_file_path : string)
    (profile_name : option string) (show_progress : bool)
    (e1 e2 : Env) (x : exn) (w' : world Env) :
  importable (env w) "boto3" = true ->
  perform (env w) (Boto3Session profile_name) = (Returned tt, e1) ->
  perform e1 (Boto3Resource "s3" endpoint_url) = (Returned tt, e2) ->
  download_attempt bucket remote_file_key download_file_path show_progress
    (World e2 (log w ++ [Boto3Session profile_name;
                         Boto3Resource "s3" endpoint_url]))
  = (Raised x, w') ->
  (forall code message, x <> ClientError code message) ->
  download_file bucket endpoint_url remote_file_key download_file_path
    profile_name show_progress w
  = (Raised x, w').
Proof.
  intros Himp Esession Eresource Eattempt Hother.
  rewrite (download_file_reaches_try w _ _ _ _ _ _ e1 e2 Himp Esession Eresource).
  apply try_except_uncaught; [done|].
  destruct x; try done. by destruct (Hother code message).
Qed.

(** X4.  With [show_progress], when loading the object fails the transfer
    is not attempted: the error of the load is raised (a 404 as the
    [ValueError] naming key and bucket) and the load is the last action. *)
Theorem s3_download_file_load_fails
    (w : world Env) (bucket : string) (endpoint_url : option string)
    (remote_file_key download_file_path : string)
    (profile_name : option string) (e1 e2 e3 : Env) (x : exn) :
  importable (env w) "boto3" = true ->
  perform (env w) (Boto3Session profile_name) = (Returned tt, e1) ->
  perform e1 (Boto3Resource "s3" endpoint_url) = (Returned tt, e2) ->
  perform e2 (S3ObjectLoad bucket remote_file_key) = (Raised x, e3) ->
  download_file bucket endpoint_url remote_file_key download_file_path
    profile_name true w
  = (Raised
       match x with
       | ClientError code _ =>
           if String.eqb code "404"
           then ValueError ["The key:%s does not exist in bucket:%s.";
                            remote_file_key; bucket]
           else x
       | _ => x
       end,
     World e3 (log w ++ [Boto3Session profile_name;
                         Boto3Resource "s3" endpoint_url;
                         S3ObjectLoad bucket remote_file_key])).
Proof.
  intros Himp Esession Eresource Eload.
  rewrite (download_file_reaches_try w _ _ _ _ _ _ e1 e2 Himp Esession Eresource).
  unfold try_except, download_attempt, do_. run. cbn [env log].
  rewrite Eload. rewrite <- !app_assoc. cbn [app].
  destruct x as [| | |code message|]; cbn [download_handler]; try done.
  by destruct (String.eqb code "404").
Qed.

(** X5.  The session and the resource are created before the [try]: an
    error raised by either leaves [download_file] unchanged, whatever it is
    (a [ClientError] with code 404 too), and nothing further is done. *)
Theorem s3_download_file_connect_error
    (w : world Env) (bucket : string) (endpoint_url : option string)
    (remote_file_key download_file_path : string)
    (profile_name : option string) (show_progress : bool)
    (e1 e2 : Env) (x : exn) :
  importable (env w) "boto3" = true ->
  (perform (env w) (Boto3Session profile_name) = (Raised x, e1) ->
   download_file bucket endpoint_url remote_file_key download_file_path
     profile_name show_progress w
   = (Raised x, World e1 (log w ++ [Boto3Session profile_name])))
  /\ (perform (env w) (Boto3Session profile_name) = (Returned tt, e1) ->
      perform e1 (Boto3Resource "s3" endpoint_url) = (Raised x, e2) ->
      download_file bucket endpoint_url remote_file_key download_file_path
        profile_name show_progress w
      = (Raised x, World e2 (log w ++ [Boto3Session profile_name;
                                       Boto3Resource "s3" endpoint_url]))).
Proof.
  intros Himp. split.
  - intros Esession. unfold download_file.
    rewrite (bind_returned _ _ _ _ _ (check_import_boto3_installed w Himp)).
    by rewrite (do_bind_raised (Boto3Session profile_name) _ w x e1 Esession).
  - intros Esession Eresource. unfold download_file.
    rewrite (bind_returned _ _ _ _ _ (check_import_boto3_installed w Himp)).
    rewrite (do_bind_returned (Boto3Session profile_name) _ w tt e1 Esession).
    rewrite (do_bind_raised (Boto3Resource "s3" endpoint_url) _
               (World e1 (log w ++ [Boto3Session profile_name])) x e2 Eresource).
    cbn [log]. by rewrite <- app_assoc.
Qed.

(** X6.  An upload of an existing file ends as its transfer ends: the
    local path when the transfer returns, and the exception of the transfer,
    unchanged, when it raises (there is no error mapping on this side, a
    404 stays a [ClientError]).  With [show_progress] the size of the file
    is read first and becomes the total of the callback. *)
Theorem s3_upload_file_outcome
    (w : world Env) (bucket : string) (endpoint_url : option string)
    (remote_file_key upload_file_path : string)
    (profile_name : option string) (show_progress : bool)
    (st_size : Z) (e1 e2 e3 e4 : Env) (r : outcome unit) :
  importable (env w) "boto3" = true ->
  os_path_isfile (env w) upload_file_path = true ->
  perform (env w) (Boto3Session profile_name) = (Returned tt, e1) ->
  perform e1 (Boto3Resource "s3" endpoint_url) = (Returned tt, e2) ->
  (if show_progress
   then perform e2 (OsStat upload_file_path) = (Returned st_size, e3)
   else e3 = e2) ->
  let Callback :=
    if show_progress
    then Some (mkProgress st_size (os_path_basename upload_file_path)
                 (Some "Uploading") 0)
    else None in
  perform e3 (S3BucketUploadFile bucket upload_file_path remote_file_key
                Callback) = (r, e4) ->
  upload_file bucket endpoint_url remote_file_key upload_file_path
    profile_name show_progress w
  = (match r with
     | Returned _ => Returned upload_file_path
     | Raised x => Raised x
     end,
     World e4
       (log w
        ++ [Boto3Session profile_name; Boto3Resource "s3" endpoint_url]
        ++ (if show_progress then [OsStat upload_file_path] else [])
        ++ [S3BucketUploadFile bucket upload_file_path remote_file_key
              Callback])).
Proof.
  intros Himp Hfile Esession Eresource Estat Callback Eupload.
  unfold upload_file.
  rewrite (bind_returned _ _ _ _ _ (check_import_boto3_installed w Himp)).
  unfold _create_progress_callback_func, do_. run. subst Callback.
  rewrite Hfile. cbn [negb env log]. rewrite Esession. cbn [env log].
  rewrite Eresource. cbn [env log].
  destruct show_progress; cbn [env log].
  - rewrite Estat. cbn [env log]. rewrite Eupload. cbn [env log].
    rewrite <- !app_assoc. by destruct r.
  - subst e3. rewrite Eupload. cbn [env log].
    rewrite <- !app_assoc. by destruct r.
Qed.

End s3_extras.

(** * More of [SFTPWrapper] *)

Section sftp_extras.
Context {Env : Type} `{Platform Env}.
Import SFTPWrapper.

(** X7.  Without pysftp, an upload and a download both write the
    installation instructions to [stderr] and raise the [ImportError] again,
    before the URL is looked at. *)
Theorem sftp_missing_pysftp
    (w : world Env) (filepath url : string)
    (localFilepath username password : option string) (e' : Env) :
  importable (env w) "pysftp" = false ->
  perform (env w) (SysStderrWrite pysftp_instructions) = (Returned tt, e') ->
  upload_file filepath url username password w
  = (Raised (ImportError "pysftp"),
     World e' (log w ++ [SysStderrWrite pysftp_instructions]))
  /\ download_file url localFilepath username password w
     = (Raised (ImportError "pysftp"),
        World e' (log w ++ [SysStderrWrite pysftp_instructions])).
Proof.
  intros Himp E.
  assert (_check_import_sftp w
          = (Raised (ImportError "pysftp"),
             World e' (log w ++ [SysStderrWrite pysftp_instructions])))
    as Echeck.
  { unfold _check_import_sftp, do_. run. by rewrite Himp, E. }
  unfold upload_file, download_file.
  by rewrite !(bind_raised _ _ _ _ _ Echeck).
Qed.

(** X9.  An upload over an opened connection: the remote directory is
    created, entered, the file is put with its modification time kept, the
    previous directory is restored and the connection is closed, in this
    order and whether the put returns or raises; the call returns the
    reassembled URL in the first case and raises the exception of the put in
    the second. *)
Theorem sftp_upload_file_outcome
    (w : world Env) (filepath url : string) (username password : option string)
    (parsedURL : ParseResult) (e1 e2 e3 e4 e5 e6 : Env) (r : outcome unit) :
  importable (env w) "pysftp" = true ->
  urlparse url = Returned parsedURL ->
  scheme parsedURL = "sftp" ->
  perform (env w) (PysftpConnection (hostname parsedURL) username password)
  = (Returned tt, e1) ->
  perform e1 (SftpMakedirs (path parsedURL)) = (Returned tt, e2) ->
  perform e2 (SftpChdir (path parsedURL)) = (Returned tt, e3) ->
  perform e3 (SftpPut filepath true) = (r, e4) ->
  perform e4 SftpChdirBack = (Returned tt, e5) ->
  perform e5 SftpClose = (Returned tt, e6) ->
  upload_file filepath url username password w
  = (match r with
     | Returned _ =>
         Returned
           (urlunparse
              (_replace_path parsedURL
                 (quote (path parsedURL +:+ "/" +:+ (os_path_split filepath).2))))
     | Raised x => Raised x
     end,
     World e6
       (log w ++ [PysftpConnection (hostname parsedURL) username password;
                  SftpMakedirs (path parsedURL); SftpChdir (path parsedURL);
                  SftpPut filepath true; SftpChdirBack; SftpClose])).
Proof.
  intros Himp Eparse Hscheme Econn Emk Ecd Eput Eback Eclose.
  unfold upload_file.
  rewrite (bind_returned _ _ _ _ _ (check_import_sftp_installed w Himp)).
  rewrite (bind_returned _ _ _ _ _
             (parse_for_sftp_accepts w url parsedURL Eparse Hscheme)).
  unfold with_connection, with_cd, try_finally, with_, do_. run. cbn [env log].
  rewrite Econn. cbn [env log]. rewrite Emk. cbn [env log].
  rewrite Ecd. cbn [env log]. rewrite Eput. cbn [env log].
  rewrite Eback. cbn [env log]. rewrite Eclose.
  rewrite <- !app_assoc. by destruct r.
Qed.

(** X10.  Once the connection of an upload is opened it is closed, whatever
    happens in between: closing it is the last action of the call. *)
Theorem sftp_upload_file_closes_connection
    (w : world Env) (filepath url : string) (username password : option string)
    (parsedURL : ParseResult) (e1 : Env) :
  importable (env w) "pysftp" = true ->
  urlparse url = Returned parsedURL ->
  scheme parsedURL = "sftp" ->
  perform (env w) (PysftpConnection (hostname parsedURL) username password)
  = (Returned tt, e1) ->
  last (log (upload_file filepath url username password w).2) = Some SftpClose.
Proof.
  intros Himp Eparse Hscheme Econn.
  unfold upload_file.
  rewrite (bind_returned _ _ _ _ _ (check_import_sftp_installed w Himp)).
  rewrite (bind_returned _ _ _ _ _
             (parse_for_sftp_accepts w url parsedURL Eparse Hscheme)).
  unfold with_connection, with_cd, try_finally, with_, do_. run. cbn [env log].
  rewrite Econn. cbn [env log].
  repeat match goal with
         | |- context [perform ?e ?a] =>
             destruct (perform e a) as [[[]|?] ?]; cbn [env log]
         end;
    cbn [snd log]; apply last_snoc.
Qed.

(** A run of [download_file] that reaches the server: the outcome of the
    transfer decides the outcome of the call. *)
Lemma sftp_download_file_run
    (w : world Env) (url : string) (localFilepath username password : option string)
    (parsedURL : ParseResult) (base : string) (e1 e2 e3 e4 : Env)
    (r : outcome unit) :
  importable (env w) "pysftp" = true ->
  urlparse url = Returned parsedURL ->
  scheme parsedURL = "sftp" ->
  match localFilepath with
  | None => os_getcwd (env w) = Returned base
  | Some p => p = base
  end ->
  let remote := unquote (path parsedURL) in
  let dest :=
    if os_path_isdir (env w) base
    then os_path_join base (split_last "/" remote)
    else base in
  let dir := os_path_dirname dest in
  (if os_path_exists (env w) dir then e1 = env w
   else perform (env w) (OsMakedirs dir) = (Returned tt, e1)) ->
  perform e1 (PysftpConnection (hostname parsedURL) username password)
  = (Returned tt, e2) ->
  perform e2 (SftpGet remote dest true) = (r, e3) ->
  perform e3 SftpClose = (Returned tt, e4) ->
  download_file url localFilepath username password w
  = (match r with
     | Returned _ => Returned dest
     | Raised x => Raised x
     end,
     World e4
       (log w
        ++ (if os_path_exists (env w) dir then [] else [OsMakedirs dir])
        ++ [PysftpConnection (hostname parsedURL) username password;
            SftpGet remote dest true; SftpClose])).
Proof.
  intros Himp Eparse Hscheme Hbase remote dest dir Hdir Econn Eget Eclose.
  unfold download_file.
  rewrite (bind_returned _ _ _ _ _ (check_import_sftp_installed w Himp)).
  rewrite (bind_returned _ _ _ _ _
             (parse_for_sftp_accepts w url parsedURL Eparse Hscheme)).
  cbv zeta.
  assert (Ebase : match localFilepath with
                  | None => observe_or_raise os_getcwd
                  | Some p => mret p
                  end w = (Returned base, w)).
  { destruct localFilepath as [p|]; run; [by subst | by rewrite Hbase]. }
  rewrite (bind_returned _ _ _ _ _ Ebase).
  unfold with_connection, with_, do_. run. fold remote dest dir.
  destruct (os_path_exists (env w) dir); cbn [negb env log].
  - subst e1. rewrite Econn. cbn [env log]. rewrite Eget. cbn [env log].
    rewrite Eclose. rewrite <- !app_assoc. by destruct r.
  - rewrite Hdir. cbn [env log]. rewrite Econn. cbn [env log].
    rewrite Eget. cbn [env log]. rewrite Eclose.
    rewrite <- !app_assoc. by destruct r.
Qed.

(** X13.  When the transfer of a download fails the connection is still
    closed and the exception of the transfer is raised, not the
    destination returned. *)
Theorem sftp_download_file_transfer_fails
    (w : world Env) (url : string) (localFilepath username password : option string)
    (parsedURL : ParseResult) (base : string) (e1 e2 e3 e4 : Env) (x : exn) :
  importable (env w) "pysftp" = true ->
  urlparse url = Returned parsedURL ->
  scheme parsedURL = "sftp" ->
  match localFilepath with
  | None => os_getcwd (env w) = Returned base
  | Some p => p = base
  end ->
  let remote := unquote (path parsedURL) in
  let dest :=
    if os_path_isdir (env w) base
    then os_path_join base (split_last "/" remote)
    else base in
  let dir := os_path_dirname dest in
  (if os_path_exists (env w) dir then e1 = env w
   else perform (env w) (OsMakedirs dir) = (Returned tt, e1)) ->
  perform e1 (PysftpConnection (hostname parsedURL) username password)
  = (Returned tt, e2) ->
  perform e2 (SftpGet remote dest true) = (Raised x, e3) ->
  perform e3 SftpClose = (Returned tt, e4) ->
  download_file url localFilepath username password w
  = (Raised x,
     World e4
       (log w
        ++ (if os_path_exists (env w) dir then [] else [OsMakedirs dir])
        ++ [PysftpConnection (hostname parsedURL) username password;
            SftpGet remote dest true; SftpClose])).
Proof.
  intros Himp Eparse Hscheme Hbase remote dest dir Hdir Econn Eget Eclose.
  exact (sftp_download_file_run w url localFilepath username password
           parsedURL base e1 e2 e3 e4 (Raised x)
           Himp Eparse Hscheme Hbase Hdir Econn Eget Eclose).
Qed.

(** X14.  A download that cannot find its working directory, or cannot
    create the directory of its destination, raises that error without
    opening a connection. *)
Theorem sftp_download_file_fails_before_connecting
    (w : world Env) (url : string) (localFilepath username password : option string)
    (parsedURL : ParseResult) (x : exn) :
  importable (env w) "pysftp" = true ->
  urlparse url = Returned parsedURL ->
  scheme parsedURL = "sftp" ->
  (localFilepath = None -> os_getcwd (env w) = Raised x ->
   download_file url localFilepath username password w = (Raised x, w))
  /\ (forall base e1,
        match localFilepath with
        | None => os_getcwd (env w) = Returned base
        | Some p => p = base
        end ->
        let dest :=
          if os_path_isdir (env w) base
          then os_path_join base (split_last "/" (unquote (path parsedURL)))
          else base in
        os_path_exists (env w) (os_path_dirname dest) = false ->
        perform (env w) (OsMakedirs (os_path_dirname dest)) = (Raised x, e1) ->
        download_file url localFilepath username password w
        = (Raised x, World e1 (log w ++ [OsMakedirs (os_path_dirname dest)]))).
Proof.
  intros Himp Eparse Hscheme. split.
  - intros -> Ecwd. unfold download_file.
    rewrite (bind_returned _ _ _ _ _ (check_import_sftp_installed w Himp)).
    rewrite (bind_returned _ _ _ _ _
               (parse_for_sftp_accepts w url parsedURL Eparse Hscheme)).
    run. by rewrite Ecwd.
  - intros base e1 Hbase dest Hexists Emk. unfold download_file.
    rewrite (bind_returned _ _ _ _ _ (check_import_sftp_installed w Himp)).
    rewrite (bind_returned _ _ _ _ _
               (parse_for_sftp_accepts w url parsedURL Eparse Hscheme)).
    cbv zeta.
    assert (Ebase : match localFilepath with
                    | None => observe_or_raise os_getcwd
                    | Some p => mret p
                    end w = (Returned base, w)).
    { destruct localFilepath as [p|]; run; [by subst | by rewrite Hbase]. }
    rewrite (bind_returned _ _ _ _ _ Ebase).
    unfold do_. run. fold dest. rewrite Hexists. cbn [negb]. by rewrite Emk.
Qed.

(** X15.  Upload, then download from the URL that the upload returned: when
    [unquote] undoes [quote] on the remote path and [urlparse] reads back
    what [urlunparse] wrote, the download asks the server for the remote
    directory of the upload, a slash and the name of the uploaded file, and
    stores it at the given local path. *)
Theorem sftp_upload_then_download
    (w w1 w2 : world Env) (filepath url : string)
    (username password : option string) (parsedURL : ParseResult)
    (stored dest : string) (e1 e2 e3 : Env) :
  urlparse url = Returned parsedURL ->
  upload_file filepath url username password w = (Returned stored, w1) ->
  let remote := path parsedURL +:+ "/" +:+ (os_path_split filepath).2 in
  let storedURL := _replace_path parsedURL (quote remote) in
  unquote (quote remote) = remote ->
  urlparse (urlunparse storedURL) = Returned storedURL ->
  importable (env w2) "pysftp" = true ->
  os_path_isdir (env w2) dest = false ->
  os_path_exists (env w2) (os_path_dirname dest) = true ->
  perform (env w2) (PysftpConnection (hostname storedURL) username password)
  = (Returned tt, e1) ->
  perform e1 (SftpGet remote dest true) = (Returned tt, e2) ->
  perform e2 SftpClose = (Returned tt, e3) ->
  download_file stored (Some dest) username password w2
  = (Returned dest,
     World e3
       (log w2 ++ [PysftpConnection (hostname storedURL) username password;
                   SftpGet remote dest true; SftpClose])).
Proof.
  intros Eparse Eupload remote storedURL Hquote Hurl Himp Hdir Hexists
    Econn Eget Eclose.
  unfold upload_file in Eupload.
  apply bind_inv_returned in Eupload as (? & w3 & _ & Eupload).
  apply bind_inv_returned in Eupload as (parsed' & w4 & Eparse' & Eupload).
  apply bind_inv_returned in Eupload as (? & w5 & _ & Eupload).
  apply parse_for_sftp_returned in Eparse' as [Eparse' Hscheme].
  rewrite Eparse in Eparse'. injection Eparse' as <-.
  assert (stored = urlunparse storedURL) as -> by (by inversion Eupload).
  pose proof (sftp_download_file_run w2 (urlunparse storedURL) (Some dest)
                username password storedURL dest (env w2) e1 e2 e3
                (Returned tt) Himp Hurl Hscheme eq_refl) as Hrun.
  cbv zeta in Hrun. rewrite Hdir, Hexists in Hrun.
  change (path storedURL) with (quote remote) in Hrun.
  rewrite Hquote in Hrun. by apply Hrun.
Qed.

(** X8.  A URL that [urlparse] itself rejects: its exception leaves upload
    and download unchanged, in an untouched world. *)
Theorem sftp_parse_error
    (w : world Env) (filepath url : string)
    (localFilepath username password : option string) (x : exn) :
  importable (env w) "pysftp" = true ->
  urlparse url = Raised x ->
  upload_file filepath url username password w = (Raised x, w)
  /\ download_file url localFilepath username password w = (Raised x, w).
Proof.
  intros Himp Eparse.
  assert (_parse_for_sftp url w = (Raised x, w)) as E
    by (unfold _parse_for_sftp; run; by rewrite Eparse).
  unfold upload_file, download_file.
  rewrite !(bind_returned _ _ _ _ _ (check_import_sftp_installed w Himp)).
  by rewrite !(bind_raised _ _ _ _ _ E).
Qed.

(** X11.  When the remote directory cannot be created nothing is entered
    or put: the connection is closed and the error is raised.  When it
    cannot be entered nothing is put: the previous directory is restored,
    the connection is closed and the error is raised, or the error of the
    restoring when that fails too. *)
Theorem sftp_upload_file_directory_fails
    (w : world Env) (filepath url : string) (username password : option string)
    (parsedURL : ParseResult) (e1 e2 e3 e4 e5 : Env) (x : exn) :
  importable (env w) "pysftp" = true ->
  urlparse url = Returned parsedURL ->
  scheme parsedURL = "sftp" ->
  perform (env w) (PysftpConnection (hostname parsedURL) username password)
  = (Returned tt, e1) ->
  (perform e1 (SftpMakedirs (path parsedURL)) = (Raised x, e2) ->
   perform e2 SftpClose = (Returned tt, e3) ->
   upload_file filepath url username password w
   = (Raised x,
      World e3
        (log w ++ [PysftpConnection (hostname parsedURL) username password;
                   SftpMakedirs (path parsedURL); SftpClose])))
  /\ (perform e1 (SftpMakedirs (path parsedURL)) = (Returned tt, e2) ->
      perform e2 (SftpChdir (path parsedURL)) = (Raised x, e3) ->
      perform e3 SftpChdirBack = (Returned tt, e4) ->
      perform e4 SftpClose = (Returned tt, e5) ->
      upload_file filepath url username password w
      = (Raised x,
         World e5
           (log w ++ [PysftpConnection (hostname parsedURL) username password;
                      SftpMakedirs (path parsedURL);
                      SftpChdir (path parsedURL); SftpChdirBack; SftpClose])))
  /\ (forall x',
        perform e1 (SftpMakedirs (path parsedURL)) = (Returned tt, e2) ->
        perform e2 (SftpChdir (path parsedURL)) = (Raised x, e3) ->
        perform e3 SftpChdirBack = (Raised x', e4) ->
        perform e4 SftpClose = (Returned tt, e5) ->
        upload_file filepath url username password w
        = (Raised x',
           World e5
             (log w ++ [PysftpConnection (hostname parsedURL) username password;
                        SftpMakedirs (path parsedURL);
                        SftpChdir (path parsedURL); SftpChdirBack;
                        SftpClose]))).
Proof.
  intros Himp Eparse Hscheme Econn.
  split; [intros Emk Eclose
         | split; [intros Emk Ecd Eback Eclose
                  | intros x' Emk Ecd Eback Eclose]];
    unfold upload_file;
    rewrite (bind_returned _ _ _ _ _ (check_import_sftp_installed w Himp));
    rewrite (bind_returned _ _ _ _ _
               (parse_for_sftp_accepts w url parsedURL Eparse Hscheme));
    unfold with_connection, with_cd, try_finally, with_, do_; run;
    cbn [env log]; rewrite Econn; cbn [env log]; rewrite Emk; cbn [env log].
  - rewrite Eclose. by rewrite <- !app_assoc.
  - rewrite Ecd. cbn [env log]. rewrite Eback. cbn [env log].
    rewrite Eclose. by rewrite <- !app_assoc.
  - rewrite Ecd. cbn [env log]. rewrite Eback. cbn [env log].
    rewrite Eclose. by rewrite <- !app_assoc.
Qed.

(** X12.  When the connection cannot be opened its exception is raised and
    nothing is transferred or closed; a download has by then created the
    missing local directory, which stays. *)
Theorem sftp_connection_refused
    (w : world Env) (filepath url : string)
    (localFilepath username password : option string)
    (parsedURL : ParseResult) (x : exn) :
  importable (env w) "pysftp" = true ->
  urlparse url = Returned parsedURL ->
  scheme parsedURL = "sftp" ->
  (forall e1,
      perform (env w) (PysftpConnection (hostname parsedURL) username password)
      = (Raised x, e1) ->
      upload_file filepath url username password w
      = (Raised x,
         World e1
           (log w ++ [PysftpConnection (hostname parsedURL) username password])))
  /\ (forall base e1 e2,
        match localFilepath with
        | None => os_getcwd (env w) = Returned base
        | Some p => p = base
        end ->
        let dest :=
          if os_path_isdir (env w) base
          then os_path_join base (split_last "/" (unquote (path parsedURL)))
          else base in
        let dir := os_path_dirname dest in
        (if os_path_exists (env w) dir then e1 = env w
         else perform (env w) (OsMakedirs dir) = (Returned tt, e1)) ->
        perform e1 (PysftpConnection (hostname parsedURL) username password)
        = (Raised x, e2) ->
        download_file url localFilepath username password w
        = (Raised x,
           World e2
             (log w
              ++ (if os_path_exists (env w) dir then [] else [OsMakedirs dir])
              ++ [PysftpConnection (hostname parsedURL) username password]))).
Proof.
  intros Himp Eparse Hscheme. split.
  - intros e1 Econn. unfold upload_file.
    rewrite (bind_returned _ _ _ _ _ (check_import_sftp_installed w Himp)).
    rewrite (bind_returned _ _ _ _ _
               (parse_for_sftp_accepts w url parsedURL Eparse Hscheme)).
    unfold with_connection, with_, do_. run. cbn [env log]. by rewrite Econn.
  - intros base e1 e2 Hbase dest dir Hdir Econn. unfold download_file.
    rewrite (bind_returned _ _ _ _ _ (check_import_sftp_installed w Himp)).
    rewrite (bind_returned _ _ _ _ _
               (parse_for_sftp_accepts w url parsedURL Eparse Hscheme)).
    cbv zeta.
    assert (Ebase : match localFilepath with
                    | None => observe_or_raise os_getcwd
                    | Some p => mret p
                    end w = (Returned base, w)).
    { destruct localFilepath as [p|]; run; [by subst | by rewrite Hbase]. }
    rewrite (bind_returned _ _ _ _ _ Ebase).
    unfold with_connection, with_, do_. run. fold dest dir.
    destruct (os_path_exists (env w) dir); cbn [negb env log].
    + subst e1. rewrite Econn. by rewrite app_nil_l.
    + rewrite Hdir. cbn [env log]. rewrite Econn. by rewrite <- !app_assoc.
Qed.

End sftp_extras.

(** * [path.split('/')[-1]] *)

Lemma split_last_no_sep sep s :
  existsb (Ascii.eqb sep) (list_ascii_of_string (split_last sep s)) = false.
Proof.
  induction s as [|c s IH]; [done|]. cbn [split_last].
  destruct (existsb (Ascii.eqb sep) (list_ascii_of_string s)) eqn:Es; [done|].
  destruct (Ascii.eqb_spec c sep) as [->|Hne]; [done|].
  cbn [list_ascii_of_string existsb]. rewrite Es.
  destruct (Ascii.eqb_spec sep c); [by subst | done].
Qed.

(** X16.  The file name that a download takes from the URL path,
    [path.split('/')[-1]], has no slash; the path is a directory part, a
    slash and this name, or the name alone when the path has no slash. *)
Theorem split_last_spec sep s :
  let name := split_last sep s in
  existsb (Ascii.eqb sep) (list_ascii_of_string name) = false
  /\ if existsb (Ascii.eqb sep) (list_ascii_of_string s)
     then exists directory, s = directory +:+ String sep name
     else name = s.
Proof.
  split; [apply split_last_no_sep|].
  induction s as [|c s IH]; [done|]. cbn [split_last list_ascii_of_string existsb].
  destruct (existsb (Ascii.eqb sep) (list_ascii_of_string s)) eqn:Es.
  - rewrite orb_true_r. destruct IH as [directory IH].
    exists (String c directory).
    change (String c s
            = String c (directory +:+ String sep (split_last sep s))).
    by f_equal.
  - rewrite orb_false_r.
    destruct (Ascii.eqb_spec c sep) as [->|Hne].
    + rewrite Ascii.eqb_refl. by exists EmptyString.
    + destruct (Ascii.eqb_spec sep c); [by subst | done].
Qed.

(** * More runs on the reference platform *)

(** On a machine without boto3. *)
Lemma s3_missing_boto3_witness :
  S3ClientWrapper.download_file "data" None "reports/a.csv" "/tmp/a.csv" None
    true (Posix.start bare_machine)
  = (Raised (ImportError "boto3"),
     World bare_machine [SysStderrWrite S3ClientWrapper.boto3_instructions])
  /\ S3ClientWrapper.upload_file "data" None "reports/b.csv" "/tmp/nothing"
       None true (Posix.start bare_machine)
     = (Raised (ImportError "boto3"),
        World bare_machine [SysStderrWrite S3ClientWrapper.boto3_instructions]).
Proof.
  split;
    apply (@s3_missing_boto3 Posix.state Posix.platform
             (Posix.start bare_machine) "data" None);
    vm_compute; reflexivity.
Defined.

(** A download with, and one without, the progress display. *)
Lemma s3_download_file_success_witness :
  S3ClientWrapper.download_file "data" None "reports/a.csv" "/tmp/a.csv" None
    true (Posix.start Posix.machine)
  = (Returned "/tmp/a.csv",
     World (Posix.add_file "/tmp/a.csv" 2048%Z Posix.machine)
       [Boto3Session None; Boto3Resource "s3" None;
        S3ObjectLoad "data" "reports/a.csv";
        S3ObjectDownloadFile "data" "reports/a.csv" "/tmp/a.csv"
          (Some (mkProgress 2048 "a.csv" (Some "Downloading") 0))])
  /\ S3ClientWrapper.download_file "data" None "reports/a.csv" "/tmp/a.csv"
       None false (Posix.start Posix.machine)
     = (Returned "/tmp/a.csv",
        World (Posix.add_file "/tmp/a.csv" 2048%Z Posix.machine)
          [Boto3Session None; Boto3Resource "s3" None;
           S3ObjectDownloadFile "data" "reports/a.csv" "/tmp/a.csv" None]).
Proof.
  split.
  - apply (@s3_download_file_success Posix.state Posix.platform
             (Posix.start Posix.machine) "data" None "reports/a.csv"
             "/tmp/a.csv" None true 2048%Z Posix.machine Posix.machine
             Posix.machine); vm_compute; reflexivity.
  - apply (@s3_download_file_success Posix.state Posix.platform
             (Posix.start Posix.machine) "data" None "reports/a.csv"
             "/tmp/a.csv" None false 0%Z Posix.machine Posix.machine
             Posix.machine); vm_compute; reflexivity.
Defined.

(** The network fails during the transfer. *)
Lemma s3_download_file_other_error_witness :
  S3ClientWrapper.download_file "data" None "reports/a.csv" "/tmp/a.csv" None
    true (Faulty.start Posix.machine Faulty.transfer_fails)
  = (Raised (OtherError "EndpointConnectionError" "Could not connect"),
     World (Posix.machine, Faulty.transfer_fails)
       [Boto3Session None; Boto3Resource "s3" None;
        S3ObjectLoad "data" "reports/a.csv";
        S3ObjectDownloadFile "data" "reports/a.csv" "/tmp/a.csv"
          (Some (mkProgress 2048 "a.csv" (Some "Downloading") 0))]).
Proof.
  apply (@s3_download_file_other_error Faulty.state Faulty.platform
           (Faulty.start Posix.machine Faulty.transfer_fails) "data" None
           "reports/a.csv" "/tmp/a.csv" None true
           (Posix.machine, Faulty.transfer_fails)
           (Posix.machine, Faulty.transfer_fails));
    try (vm_compute; reflexivity).
  intros code message. discriminate.
Defined.

(** Access to the bucket is refused when the object is loaded. *)
Lemma s3_download_file_load_fails_witness :
  S3ClientWrapper.download_file "private" None "reports/a.csv" "/tmp/a.csv"
    None true (Posix.start Posix.machine)
  = (Raised (ClientError "403" "Forbidden"),
     World Posix.machine
       [Boto3Session None; Boto3Resource "s3" None;
        S3ObjectLoad "private" "reports/a.csv"]).
Proof.
  apply (@s3_download_file_load_fails Posix.state Posix.platform
           (Posix.start Posix.machine) "private" None "reports/a.csv"
           "/tmp/a.csv" None Posix.machine Posix.machine Posix.machine
           (ClientError "403" "Forbidden"));
    vm_compute; reflexivity.
Defined.

(** A 404 while the resource is created is not turned into a [ValueError]. *)
Lemma s3_download_file_connect_error_witness :
  S3ClientWrapper.download_file "data" None "reports/a.csv" "/tmp/a.csv" None
    true (Faulty.start Posix.machine Faulty.resource_fails)
  = (Raised (ClientError "404" "Not Found"),
     World (Posix.machine, Faulty.resource_fails)
       [Boto3Session None; Boto3Resource "s3" None]).
Proof.
  apply (proj2 (@s3_download_file_connect_error Faulty.state Faulty.platform
                  (Faulty.start Posix.machine Faulty.resource_fails) "data"
                  None "reports/a.csv" "/tmp/a.csv" None true
                  (Posix.machine, Faulty.resource_fails)
                  (Posix.machine, Faulty.resource_fails)
                  (ClientError "404" "Not Found")
                  ltac:(vm_compute; reflexivity)));
    vm_compute; reflexivity.
Defined.

(** An upload that succeeds, and one the endpoint answers with a 404. *)
Lemma s3_upload_file_outcome_witness :
  S3ClientWrapper.upload_file "data" None "reports/my file.txt"
    "/tmp/my file.txt" None true (Posix.start Posix.machine)
  = (Returned "/tmp/my file.txt",
     World (Posix.add_object "data" "reports/my file.txt" 16%Z Posix.machine)
       [Boto3Session None; Boto3Resource "s3" None; OsStat "/tmp/my file.txt";
        S3BucketUploadFile "data" "/tmp/my file.txt" "reports/my file.txt"
          (Some (mkProgress 16 "my file.txt" (Some "Uploading") 0))])
  /\ S3ClientWrapper.upload_file "data" None "reports/my file.txt"
       "/tmp/my file.txt" None false
       (Faulty.start Posix.machine Faulty.upload_not_found)
     = (Raised (ClientError "404" "Not Found"),
        World (Posix.machine, Faulty.upload_not_found)
          [Boto3Session None; Boto3Resource "s3" None;
           S3BucketUploadFile "data" "/tmp/my file.txt" "reports/my file.txt"
             None]).
Proof.
  split.
  - apply (@s3_upload_file_outcome Posix.state Posix.platform
             (Posix.start Posix.machine) "data" None "reports/my file.txt"
             "/tmp/my file.txt" None true 16%Z Posix.machine Posix.machine
             Posix.machine
             (Posix.add_object "data" "reports/my file.txt" 16%Z Posix.machine)
             (Returned tt)); vm_compute; reflexivity.
  - apply (@s3_upload_file_outcome Faulty.state Faulty.platform
             (Faulty.start Posix.machine Faulty.upload_not_found) "data" None
             "reports/my file.txt" "/tmp/my file.txt" None false 0%Z
             (Posix.machine, Faulty.upload_not_found)
             (Posix.machine, Faulty.upload_not_found)
             (Posix.machine, Faulty.upload_not_found)
             (Posix.machine, Faulty.upload_not_found)
             (Raised (ClientError "404" "Not Found")));
      vm_compute; reflexivity.
Defined.

(** On a machine without pysftp, even for an [http] URL. *)
Lemma sftp_missing_pysftp_witness :
  SFTPWrapper.upload_file "/tmp/my file.txt" "http://sftp.example.com/path"
    None None (Posix.start bare_machine)
  = (Raised (ImportError "pysftp"),
     World bare_machine [SysStderrWrite SFTPWrapper.pysftp_instructions])
  /\ SFTPWrapper.download_file "sftp://sftp.example.com/path/to/a.csv" None
       None None (Posix.start bare_machine)
     = (Raised (ImportError "pysftp"),
        World bare_machine [SysStderrWrite SFTPWrapper.pysftp_instructions]).
Proof.
  split.
  - apply (proj1 (@sftp_missing_pysftp Posix.state Posix.platform
                    (Posix.start bare_machine) "/tmp/my file.txt"
                    "http://sftp.example.com/path" None None None bare_machine
                    ltac:(vm_compute; reflexivity)
                    ltac:(vm_compute; reflexivity))).
  - apply (proj2 (@sftp_missing_pysftp Posix.state Posix.platform
                    (Posix.start bare_machine) "/tmp/my file.txt"
                    "sftp://sftp.example.com/path/to/a.csv" None None None
                    bare_machine ltac:(vm_compute; reflexivity)
                    ltac:(vm_compute; reflexivity))).
Defined.

(** An unbalanced bracket in the host. *)
Lemma sftp_parse_error_witness :
  SFTPWrapper.upload_file "/tmp/my file.txt" "sftp://[::1/x" None None
    (Posix.start Posix.machine)
  = (Raised (ValueError ["Invalid IPv6 URL"]), Posix.start Posix.machine)
  /\ SFTPWrapper.download_file "sftp://[::1/x" None None None
       (Posix.start Posix.machine)
     = (Raised (ValueError ["Invalid IPv6 URL"]), Posix.start Posix.machine).
Proof.
  apply (@sftp_parse_error Posix.state Posix.platform
           (Posix.start Posix.machine) "/tmp/my file.txt" "sftp://[::1/x"
           None None None (ValueError ["Invalid IPv6 URL"]));
    vm_compute; reflexivity.
Defined.

(** An upload that succeeds, and one whose put is refused. *)
Lemma sftp_upload_file_outcome_witness :
  SFTPWrapper.upload_file "/tmp/my file.txt"
    "sftp://sftp.example.com/path/to/file store" None None
    (Posix.start Posix.machine)
  = (Returned "sftp://sftp.example.com/path/to/file%20store/my%20file.txt",
     World Posix.machine
       [PysftpConnection (Some "sftp.example.com") None None;
        SftpMakedirs "/path/to/file store"; SftpChdir "/path/to/file store";
        SftpPut "/tmp/my file.txt" true; SftpChdirBack; SftpClose])
  /\ SFTPWrapper.upload_file "/tmp/my file.txt"
       "sftp://sftp.example.com/path/to/file store" None None
       (Faulty.start Posix.machine Faulty.put_fails)
     = (Raised (OtherError "IOError" "Permission denied"),
        World (Posix.machine, Faulty.put_fails)
          [PysftpConnection (Some "sftp.example.com") None None;
           SftpMakedirs "/path/to/file store"; SftpChdir "/path/to/file store";
           SftpPut "/tmp/my file.txt" true; SftpChdirBack; SftpClose]).
Proof.
  split.
  - apply (@sftp_upload_file_outcome Posix.state Posix.platform
             (Posix.start Posix.machine) "/tmp/my file.txt"
             "sftp://sftp.example.com/path/to/file store" None None
             example_url Posix.machine Posix.machine Posix.machine
             Posix.machine Posix.machine Posix.machine (Returned tt));
      vm_compute; reflexivity.
  - apply (@sftp_upload_file_outcome Faulty.state Faulty.platform
             (Faulty.start Posix.machine Faulty.put_fails) "/tmp/my file.txt"
             "sftp://sftp.example.com/path/to/file store" None None
             example_url (Posix.machine, Faulty.put_fails)
             (Posix.machine, Faulty.put_fails) (Posix.machine, Faulty.put_fails)
             (Posix.machine, Faulty.put_fails) (Posix.machine, Faulty.put_fails)
             (Posix.machine, Faulty.put_fails)
             (Raised (OtherError "IOError" "Permission denied")));
      vm_compute; reflexivity.
Defined.

(** The local file is missing: the put fails, the connection is closed. *)
Lemma sftp_upload_file_closes_connection_witness :
  last (log (SFTPWrapper.upload_file "/tmp/nothing"
               "sftp://sftp.example.com/path/to/file store" None None
               (Posix.start Posix.machine)).2)
  = Some SftpClose
  /\ fst (SFTPWrapper.upload_file "/tmp/nothing"
            "sftp://sftp.example.com/path/to/file store" None None
            (Posix.start Posix.machine))
     = Raised (OtherError "FileNotFoundError" "No such file or directory").
Proof.
  split; [|vm_compute; reflexivity].
  apply (@sftp_upload_file_closes_connection Posix.state Posix.platform
           (Posix.start Posix.machine) "/tmp/nothing"
           "sftp://sftp.example.com/path/to/file store" None None
           example_url Posix.machine);
    vm_compute; reflexivity.
Defined.

(** The remote directory cannot be created; it cannot be entered; it cannot
    be entered and the way back fails too. *)
Lemma sftp_upload_file_directory_fails_witness :
  SFTPWrapper.upload_file "/tmp/my file.txt"
    "sftp://sftp.example.com/path/to/file store" None None
    (Faulty.start Posix.machine Faulty.remote_directory_fails)
  = (Raised (OtherError "IOError" "Permission denied"),
     World (Posix.machine, Faulty.remote_directory_fails)
       [PysftpConnection (Some "sftp.example.com") None None;
        SftpMakedirs "/path/to/file store"; SftpClose])
  /\ SFTPWrapper.upload_file "/tmp/my file.txt"
       "sftp://sftp.example.com/path/to/file store" None None
       (Faulty.start Posix.machine Faulty.chdir_fails)
     = (Raised (OtherError "IOError" "No such file"),
        World (Posix.machine, Faulty.chdir_fails)
          [PysftpConnection (Some "sftp.example.com") None None;
           SftpMakedirs "/path/to/file store"; SftpChdir "/path/to/file store";
           SftpChdirBack; SftpClose])
  /\ SFTPWrapper.upload_file "/tmp/my file.txt"
       "sftp://sftp.example.com/path/to/file store" None None
       (Faulty.start Posix.machine Faulty.chdir_and_way_back_fail)
     = (Raised (OtherError "SSHException" "Session lost"),
        World (Posix.machine, Faulty.chdir_and_way_back_fail)
          [PysftpConnection (Some "sftp.example.com") None None;
           SftpMakedirs "/path/to/file store"; SftpChdir "/path/to/file store";
           SftpChdirBack; SftpClose]).
Proof.
  split; [|split].
  - apply (proj1 (@sftp_upload_file_directory_fails Faulty.state Faulty.platform
                    (Faulty.start Posix.machine Faulty.remote_directory_fails)
                    "/tmp/my file.txt"
                    "sftp://sftp.example.com/path/to/file store" None None
                    example_url (Posix.machine, Faulty.remote_directory_fails)
                    (Posix.machine, Faulty.remote_directory_fails)
                    (Posix.machine, Faulty.remote_directory_fails)
                    (Posix.machine, Faulty.remote_directory_fails)
                    (Posix.machine, Faulty.remote_directory_fails)
                    (OtherError "IOError" "Permission denied")
                    ltac:(vm_compute; reflexivity)
                    ltac:(vm_compute; reflexivity)
                    ltac:(vm_compute; reflexivity)
                    ltac:(vm_compute; reflexivity)));
      vm_compute; reflexivity.
  - apply (proj1 (proj2
             (@sftp_upload_file_directory_fails Faulty.state Faulty.platform
                (Faulty.start Posix.machine Faulty.chdir_fails)
                "/tmp/my file.txt"
                "sftp://sftp.example.com/path/to/file store" None None
                example_url (Posix.machine, Faulty.chdir_fails)
                (Posix.machine, Faulty.chdir_fails)
                (Posix.machine, Faulty.chdir_fails)
                (Posix.machine, Faulty.chdir_fails)
                (Posix.machine, Faulty.chdir_fails)
                (OtherError "IOError" "No such file")
                ltac:(vm_compute; reflexivity) ltac:(vm_compute; reflexivity)
                ltac:(vm_compute; reflexivity)
                ltac:(vm_compute; reflexivity))));
      vm_compute; reflexivity.
  - apply (proj2 (proj2
             (@sftp_upload_file_directory_fails Faulty.state Faulty.platform
                (Faulty.start Posix.machine Faulty.chdir_and_way_back_fail)
                "/tmp/my file.txt"
                "sftp://sftp.example.com/path/to/file store" None None
                example_url (Posix.machine, Faulty.chdir_and_way_back_fail)
                (Posix.machine, Faulty.chdir_and_way_back_fail)
                (Posix.machine, Faulty.chdir_and_way_back_fail)
                (Posix.machine, Faulty.chdir_and_way_back_fail)
                (Posix.machine, Faulty.chdir_and_way_back_fail)
                (OtherError "IOError" "No such file")
                ltac:(vm_compute; reflexivity) ltac:(vm_compute; reflexivity)
                ltac:(vm_compute; reflexivity)
                ltac:(vm_compute; reflexivity)))
             (OtherError "SSHException" "Session lost"));
      vm_compute; reflexivity.
Defined.

(** A URL without a host. *)
Lemma sftp_connection_refused_witness :
  SFTPWrapper.upload_file "/tmp/my file.txt" "sftp:///path/to" None None
    (Posix.start Posix.machine)
  = (Raised (OtherError "ConnectionException" "Could not connect"),
     World Posix.machine [PysftpConnection None None None])
  /\ SFTPWrapper.download_file "sftp:///path/to/a.csv" (Some "/tmp/new/out.csv")
       None None (Posix.start Posix.machine)
     = (Raised (OtherError "ConnectionException" "Could not connect"),
        World (Posix.add_directory "/tmp/new" Posix.machine)
          [OsMakedirs "/tmp/new"; PysftpConnection None None None]).
Proof.
  split.
  - apply (proj1 (@sftp_connection_refused Posix.state Posix.platform
                    (Posix.start Posix.machine) "/tmp/my file.txt"
                    "sftp:///path/to" None None None
                    (mkParseResult "sftp" EmptyString "/path/to" EmptyString
                       EmptyString EmptyString)
                    (OtherError "ConnectionException" "Could not connect")
                    ltac:(vm_compute; reflexivity)
                    ltac:(vm_compute; reflexivity)
                    ltac:(vm_compute; reflexivity))).
    vm_compute; reflexivity.
  - apply (proj2 (@sftp_connection_refused Posix.state Posix.platform
                    (Posix.start Posix.machine) "/tmp/my file.txt"
                    "sftp:///path/to/a.csv" (Some "/tmp/new/out.csv") None None
                    (mkParseResult "sftp" EmptyString "/path/to/a.csv"
                       EmptyString EmptyString EmptyString)
                    (OtherError "ConnectionException" "Could not connect")
                    ltac:(vm_compute; reflexivity)
                    ltac:(vm_compute; reflexivity)
                    ltac:(vm_compute; reflexivity))
             "/tmp/new/out.csv"
             (Posix.add_directory "/tmp/new" Posix.machine)
             (Posix.add_directory "/tmp/new" Posix.machine));
      vm_compute; reflexivity.
Defined.

(** The server has no such file; the new local directory stays. *)
Lemma sftp_download_file_transfer_fails_witness :
  SFTPWrapper.download_file "sftp://sftp.example.com/path/to/my%20data.csv"
    (Some "/tmp/new/out.csv") None None
    (Faulty.start Posix.machine Faulty.get_fails)
  = (Raised (OtherError "IOError" "No such file"),
     World (Posix.add_directory "/tmp/new" Posix.machine, Faulty.get_fails)
       [OsMakedirs "/tmp/new";
        PysftpConnection (Some "sftp.example.com") None None;
        SftpGet "/path/to/my data.csv" "/tmp/new/out.csv" true; SftpClose]).
Proof.
  apply (@sftp_download_file_transfer_fails Faulty.state Faulty.platform
           (Faulty.start Posix.machine Faulty.get_fails)
           "sftp://sftp.example.com/path/to/my%20data.csv"
           (Some "/tmp/new/out.csv") None None
           (mkParseResult "sftp" "sftp.example.com" "/path/to/my%20data.csv"
              EmptyString EmptyString EmptyString)
           "/tmp/new/out.csv"
           (Posix.add_directory "/tmp/new" Posix.machine, Faulty.get_fails)
           (Posix.add_directory "/tmp/new" Posix.machine, Faulty.get_fails)
           (Posix.add_directory "/tmp/new" Posix.machine, Faulty.get_fails)
           (Posix.add_directory "/tmp/new" Posix.machine, Faulty.get_fails)
           (OtherError "IOError" "No such file"));
    vm_compute; reflexivity.
Defined.

(** A bare file name as destination: its directory is the empty path,
    which does not exist and cannot be created. *)
Lemma sftp_download_file_fails_before_connecting_witness :
  SFTPWrapper.download_file "sftp://sftp.example.com/path/to/my%20data.csv"
    (Some "out.csv") None None (Posix.start Posix.machine)
  = (Raised (OtherError "FileNotFoundError" "No such file or directory"),
     World Posix.machine [OsMakedirs EmptyString]).
Proof.
  apply (proj2 (@sftp_download_file_fails_before_connecting Posix.state
                  Posix.platform (Posix.start Posix.machine)
                  "sftp://sftp.example.com/path/to/my%20data.csv"
                  (Some "out.csv") None None
                  (mkParseResult "sftp" "sftp.example.com"
                     "/path/to/my%20data.csv" EmptyString EmptyString
                     EmptyString)
                  (OtherError "FileNotFoundError" "No such file or directory")
                  ltac:(vm_compute; reflexivity) ltac:(vm_compute; reflexivity)
                  ltac:(vm_compute; reflexivity))
           "out.csv" Posix.machine);
    vm_compute; reflexivity.
Defined.

(** The file uploaded from ["/tmp/my file.txt"] is fetched back. *)
Lemma sftp_upload_then_download_witness :
  SFTPWrapper.download_file
    "sftp://sftp.example.com/path/to/file%20store/my%20file.txt"
    (Some "/tmp/copy.txt") None None (Posix.start Posix.machine)
  = (Returned "/tmp/copy.txt",
     World (Posix.add_file "/tmp/copy.txt" 0%Z Posix.machine)
       [PysftpConnection (Some "sftp.example.com") None None;
        SftpGet "/path/to/file store/my file.txt" "/tmp/copy.txt" true;
        SftpClose]).
Proof.
  destruct (SFTPWrapper.upload_file "/tmp/my file.txt"
              "sftp://sftp.example.com/path/to/file store" None None
              (Posix.start Posix.machine)) as [r w1] eqn:Eupload.
  assert (r = Returned
                "sftp://sftp.example.com/path/to/file%20store/my%20file.txt")
    as -> by (vm_compute in Eupload; by injection Eupload as <- _).
  apply (@sftp_upload_then_download Posix.state Posix.platform
           (Posix.start Posix.machine) w1 (Posix.start Posix.machine)
           "/tmp/my file.txt" "sftp://sftp.example.com/path/to/file store"
           None None example_url
           "sftp://sftp.example.com/path/to/file%20store/my%20file.txt"
           "/tmp/copy.txt" Posix.machine
           (Posix.add_file "/tmp/copy.txt" 0%Z Posix.machine)
           (Posix.add_file "/tmp/copy.txt" 0%Z Posix.machine));
    try exact Eupload; vm_compute; reflexivity.
Defined.
